(** * restify-prom-bundle: the metrics pre-middleware ([src/preMiddleware.ts])

    A shallow embedding of the exclusion matcher [shouldMeasure], the
    configuration check [checkConfig], the constructor [preMiddleware] and
    the request handler it returns, followed by the properties of the
    specification that concern them.

    JavaScript values are kept as a small tagged union, exceptions are an
    explicit result ([Completion]), and the mutable state the code touches
    (the module-level exclusion cache, the state of user-supplied patterns
    and predicates, the calls made on collaborators, the names held by the
    registry of prom-client) is passed explicitly. *)

From stdpp Require Import base gmap strings list.
From Stdlib Require Import ZArith Lia.

Local Open Scope string_scope.
Local Open Scope Z_scope.

(** ** Exceptions and completions *)

(** What a [throw] carries: a [TypeError] (thrown by the module itself or by
    the engine), a plain [Error] (thrown by prom-client), or anything a
    user-supplied predicate raises. *)
Inductive Exn :=
| TypeError (msg : string)
| Error (msg : string)
| Raised (what : string).

(** The outcome of evaluating a piece of code: a value, or an exception. *)
Inductive Completion (A : Type) :=
| Normal (a : A)
| Throw (e : Exn).
Arguments Normal {A} a.
Arguments Throw {A} e.

Definition completion_map {A B : Type} (f : A → B) (c : Completion A) : Completion B :=
  match c with
  | Normal a => Normal (f a)
  | Throw e => Throw e
  end.

Definition is_normal {A : Type} (c : Completion A) : bool :=
  match c with
  | Normal _ => true
  | Throw _ => false
  end.

(** ** Numbers *)

(** A JavaScript number as far as the code looks at it: [typeof], truthiness
    and the comparison [< 1000]. *)
Inductive JsNumber :=
| NaN
| Infinity (negative : bool)
| Num (z : Z).

(** [n < 1000] *)
Definition lt1000 (n : JsNumber) : bool :=
  match n with
  | NaN => false
  | Infinity negative => negative
  | Num z => bool_decide (z < 1000)
  end.

(** ** The exclusion cache: a plain object used as a map

    [shouldMeasureExcludedCache] is created as [{}], so it inherits from
    [Object.prototype].  Its own properties are a finite map; two keys behave
    differently from the others:
    - assigning a boolean to [__proto__] calls the inherited setter, which
      ignores values that are neither objects nor null: nothing is stored;
    - [cache.hasOwnProperty] is looked up on the object first, so once the
      key [hasOwnProperty] is an own property (holding a boolean) the call
      [cache.hasOwnProperty(path)] is a call of a non-function. *)

Definition js_set (o : gmap string bool) (key : string) (v : bool) : gmap string bool :=
  if decide (key = "__proto__") then o else <[key := v]> o.

Definition js_hasOwnProperty (o : gmap string bool) (key : string) : Completion bool :=
  match o !! "hasOwnProperty" with
  | Some _ => Throw (TypeError "shouldMeasureExcludedCache.hasOwnProperty is not a function")
  | None => Normal (bool_decide (is_Some (o !! key)))
  end.

(** [o[key]], read after [hasOwnProperty(key)] answered true. *)
Definition js_get (o : gmap string bool) (key : string) : bool :=
  default false (o !! key).

(** The inherited [hasOwnProperty] is still the one reached from the cache. *)
Definition cache_intact (o : gmap string bool) : Prop :=
  o !! "hasOwnProperty" = None.

(** ** Path-cardinality limiter *)

(** Modelled from the spec: the class [PathLimit] is imported from
    [./PathLimit], which is not among the sources; only its construction
    [new PathLimit(config.maxPathsToCount)] and the call
    [pathLimiter.registerPath(path)] are.  The definitions follow the
    contract of the PathCardinalityLimiter: the set of paths granted so far
    and the configured maximum; a member is granted at once, a new path is
    inserted and granted while the set is below the maximum, and refused,
    without insertion, once the set is at capacity. *)
Record PathLimit := {
  maxDistinctPaths : Z;
  pathSet : gset string
}.

Definition PathLimit_new (maxDistinctPaths : Z) : PathLimit :=
  {| maxDistinctPaths := maxDistinctPaths; pathSet := ∅ |}.

Definition registerPath (l : PathLimit) (path : string) : bool * PathLimit :=
  if decide (path ∈ pathSet l) then (true, l)
  else if decide (Z.of_nat (size (pathSet l)) < maxDistinctPaths l)
       then (true, {| maxDistinctPaths := maxDistinctPaths l;
                      pathSet := {[path]} ∪ pathSet l |})
       else (false, l).

(** A sequence of calls on one limiter: the answers, and the limiter left. *)
Fixpoint registerPaths (l : PathLimit) (paths : list string) : list bool * PathLimit :=
  match paths with
  | [] => ([], l)
  | p :: rest =>
      let '(b, l1) := registerPath l p in
      let '(bs, l2) := registerPaths l1 rest in
      (b :: bs, l2)
  end.

(** ** Requests, routes, responses, metrics *)

Record Request := {
  req_path : string;      (* req.path() *)
  req_method : string     (* req.method *)
}.

Record Response := {
  statusCode : option Z   (* None: undefined *)
}.

Record Labels := {
  l_path : string;
  l_method : string;
  l_status_code : Z
}.

(** The two callbacks the handler hands to [onFinished], with the variables
    they close over. *)
Inductive FinishCallback :=
| EndTimer (path method : string)
| IncCounter (path method : string).

(** What prom-client has recorded. *)
Record Recorded := {
  histogram_observations : list Labels;
  counter_increments : list Labels
}.

Inductive Instrument := Histogram | Counter.

Section Model.

(** The state of whatever the user supplied: a pattern's [lastIndex], the
    variables a predicate closes over. *)
Context {W : Type}.

(** A pattern: [test] may change the pattern's own state (global and sticky
    patterns do). *)
Record RegExp := {
  source : string;
  flags : string;
  test : W → string → bool * W
}.

(** A user function applied to a path: it answers with a value, of which the
    code only takes the truthiness, or throws. *)
Definition JsFunction : Type := W → string → Completion bool * W.

Inductive JsValue :=
| VUndefined
| VNull
| VBool (b : bool)
| VNumber (n : JsNumber)
| VString (s : string)
| VArray (items : list string)
| VRegExp (r : RegExp)
| VFunction (f : JsFunction)
| VObject.

Definition truthy (v : JsValue) : bool :=
  match v with
  | VUndefined | VNull => false
  | VBool b => b
  | VNumber NaN => false
  | VNumber (Infinity _) => true
  | VNumber (Num z) => negb (bool_decide (z = 0))
  | VString s => negb (bool_decide (s = ""))
  | VArray _ | VRegExp _ | VFunction _ | VObject => true
  end.

Definition isArray (v : JsValue) : bool :=
  match v with VArray _ => true | _ => false end.

Definition instanceofRegExp (v : JsValue) : bool :=
  match v with VRegExp _ => true | _ => false end.

Definition typeofFunction (v : JsValue) : bool :=
  match v with VFunction _ => true | _ => false end.

Definition typeofString (v : JsValue) : bool :=
  match v with VString _ => true | _ => false end.

Definition typeofNumber (v : JsValue) : bool :=
  match v with VNumber _ => true | _ => false end.

(** [IPreMiddlewareConfig], with the [maxPathsToCount] of [defaultConfig]. *)
Record Config := {
  route : JsValue;
  exclude : JsValue;
  promBlacklist : JsValue;
  promDefaultDelay : JsValue;
  maxPathsToCount : Z
}.

(** The calls the module makes on its collaborators, in order. *)
Inductive Event :=
| DefaultMetrics (blacklist delay : JsValue)   (* client.defaultMetrics *)
| ServerPre (exposed : JsValue)                (* server.pre(exposeRoute(route)) *)
| StartTimer (path method : string)            (* requestHistogram.startTimer *)
| OnFinished (cb : FinishCallback)             (* onFinished(res, cb) *)
| Next.                                        (* next() *)

Record State := {
  shouldMeasureExcludedCache : gmap string bool;   (* the module-level variable *)
  world : W;
  trace : list Event;
  registry : gset string   (* the names of the metrics in prom-client's registry *)
}.

Definition set_cache (c : gmap string bool) (σ : State) : State :=
  {| shouldMeasureExcludedCache := c; world := world σ; trace := trace σ;
     registry := registry σ |}.

Definition set_world (w : W) (σ : State) : State :=
  {| shouldMeasureExcludedCache := shouldMeasureExcludedCache σ; world := w;
     trace := trace σ; registry := registry σ |}.

Definition emit (e : Event) (σ : State) : State :=
  {| shouldMeasureExcludedCache := shouldMeasureExcludedCache σ;
     world := world σ;
     trace := trace σ ++ [e];
     registry := registry σ |}.

Definition set_registry (names : gset string) (σ : State) : State :=
  {| shouldMeasureExcludedCache := shouldMeasureExcludedCache σ;
     world := world σ;
     trace := trace σ;
     registry := names |}.

(** ** shouldMeasure *)

(** The chain of tests of the else branch: an array is neither a pattern nor
    a function and so on, so only the branch of the value's own shape can set
    [isExcluded]. *)
Definition evalExclude (ex : JsValue) (path : string) (w : W) : Completion bool * W :=
  match ex with
  | VArray items => (Normal (bool_decide (path ∈ items)), w)
  | VRegExp r => let '(b, w1) := test r w path in (Normal b, w1)
  | VFunction f => f w path
  | _ => (Normal false, w)
  end.

Definition shouldMeasure (path : string) (config : Config) (σ : State)
  : Completion bool * State :=
  if truthy (exclude config) then
    match js_hasOwnProperty (shouldMeasureExcludedCache σ) path with
    | Throw e => (Throw e, σ)
    | Normal true =>
        let isExcluded := js_get (shouldMeasureExcludedCache σ) path in
        (Normal (negb isExcluded), σ)
    | Normal false =>
        match evalExclude (exclude config) path (world σ) with
        | (Throw e, w1) => (Throw e, set_world w1 σ)
        | (Normal isExcluded, w1) =>
            (Normal (negb isExcluded),
             set_cache (js_set (shouldMeasureExcludedCache σ) path isExcluded)
                       (set_world w1 σ))
        end
    end
  else (Normal true, σ).

(** The exclusion rules in the words of the specification: (a) membership
    in the literal list, then (b) the pattern, then (c) the predicate; the
    first rule that applies excludes the path. *)
Definition literal_list (ex : JsValue) : list string :=
  match ex with VArray items => items | _ => [] end.

Definition pattern_of (ex : JsValue) : option RegExp :=
  match ex with VRegExp r => Some r | _ => None end.

Definition predicate_of (ex : JsValue) : option JsFunction :=
  match ex with VFunction f => Some f | _ => None end.

Definition spec_excluded (ex : JsValue) (path : string) (w : W) : Completion bool * W :=
  if bool_decide (path ∈ literal_list ex) then (Normal true, w)
  else
    let '(matched, w1) :=
      match pattern_of ex with
      | Some r => test r w path
      | None => (false, w)
      end in
    if matched then (Normal true, w1)
    else
      match predicate_of ex with
      | Some f => f w1 path
      | None => (Normal false, w1)
      end.

(** A sequence of calls of [shouldMeasure], by any instances (each call
    comes with the configuration of the instance that makes it). *)
Fixpoint shouldMeasureCalls (calls : list (string * Config)) (σ : State) : State :=
  match calls with
  | [] => σ
  | (path, config) :: rest => shouldMeasureCalls rest (snd (shouldMeasure path config σ))
  end.

(** ** checkConfig *)

(** The own properties of the object the caller passes; [None] is a property
    that is not there, [Some VUndefined] one that holds [undefined]. *)
Record UserConfig := {
  u_route : option JsValue;
  u_exclude : option JsValue;
  u_promBlacklist : option JsValue;
  u_promDefaultDelay : option JsValue;
  u_maxPathsToCount : option Z
}.

(** The second argument of [preMiddleware], by what [typeof] says of it. *)
Inductive UserConfigArg :=
| UArgUndefined
| UArgNull
| UArgNotObject          (* a number, a string, a boolean, a function *)
| UArgObject (o : UserConfig).

Definition defaultConfig : Config :=
  {| route := VString "/metrics";
     exclude := VUndefined;
     promBlacklist := VArray [];
     promDefaultDelay := VNumber (Num 1000);
     maxPathsToCount := 100 |}.

Definition emptyObject : UserConfig :=
  {| u_route := None; u_exclude := None; u_promBlacklist := None;
     u_promDefaultDelay := None; u_maxPathsToCount := None |}.

(** [assign({}, defaults, o)]: every own property of [o] overrides. *)
Definition assign (defaults : Config) (o : UserConfig) : Config :=
  {| route := default (route defaults) (u_route o);
     exclude := default (exclude defaults) (u_exclude o);
     promBlacklist := default (promBlacklist defaults) (u_promBlacklist o);
     promDefaultDelay := default (promDefaultDelay defaults) (u_promDefaultDelay o);
     maxPathsToCount := default (maxPathsToCount defaults) (u_maxPathsToCount o) |}.

Definition is_false (v : JsValue) : bool :=
  match v with VBool false => true | _ => false end.

(** [v < 1000], evaluated once [typeof v] is known to be a number. *)
Definition lessThan1000 (v : JsValue) : bool :=
  match v with VNumber n => lt1000 n | _ => false end.

Definition normalizeExclude (config : Config) : Config :=
  match exclude config with
  | VString s =>
      {| route := route config; exclude := VArray [s];
         promBlacklist := promBlacklist config;
         promDefaultDelay := promDefaultDelay config;
         maxPathsToCount := maxPathsToCount config |}
  | _ => config
  end.

Definition checkConfig (userConfig : UserConfigArg) : Completion Config :=
  match userConfig with
  | UArgNotObject =>
      Throw (TypeError "Invalid second argument for restify-prom-bundle.middleware()")
  | _ =>
      let config :=
        assign defaultConfig
               (match userConfig with UArgObject o => o | _ => emptyObject end) in
      if negb (is_false (route config))
         && (negb (typeofString (route config)) || negb (truthy (route config)))
      then Throw (TypeError "`route` option for restify-prom-bundle.middleware() must be a non empty string or false")
      else
        let config := normalizeExclude config in
        if truthy (exclude config)
           && (negb (isArray (exclude config))
               && negb (instanceofRegExp (exclude config))
               && negb (typeofFunction (exclude config)))
        then Throw (TypeError "`exclude` option for restify-prom-bundle.middleware() must be string | string[] | RegExp | Function")
        else if negb (isArray (promBlacklist config))
        then Throw (TypeError "`promBlacklist` option for restify-prom-bundle.middleware() must be an array")
        else if negb (typeofNumber (promDefaultDelay config))
                || lessThan1000 (promDefaultDelay config)
        then Throw (TypeError "`promDefaultDelay` option for restify-prom-bundle.middleware() must be number >= 1000")
        else Normal config
  end.

(** The options the check is meant to refuse, each in the words of its
    error message. *)
Definition bad_route (v : JsValue) : Prop :=
  v ≠ VBool false ∧ ∀ s, v = VString s → s = "".

Definition bad_exclude (v : JsValue) : Prop :=
  truthy v = true
  ∧ (∀ items, v ≠ VArray items) ∧ (∀ r, v ≠ VRegExp r) ∧ (∀ f, v ≠ VFunction f).

Definition bad_promBlacklist (v : JsValue) : Prop :=
  ∀ items, v ≠ VArray items.

Definition bad_promDefaultDelay (v : JsValue) : Prop :=
  (∀ n, v ≠ VNumber n)
  ∨ (∃ z, v = VNumber (Num z) ∧ z < 1000)
  ∨ v = VNumber (Infinity true).

(** ** initMetrics *)

(** The object [initMetrics] returns, by property name. *)
Definition initMetrics (config : Config) : gmap string Instrument :=
  <["requestCounter" := Counter]> (<["requestHistogram" := Histogram]> ∅).

(** [new client.Histogram(name, ...)] and [new client.Counter(name, ...)]:
    the constructors of prom-client enter the instrument, under its name, in
    the registry of the process, and throw when the registry already holds a
    metric of that name. *)
Definition newInstrument (name : string) (σ : State) : Completion unit * State :=
  if decide (name ∈ registry σ)
  then (Throw (Error ("A metric with the name " ++ name ++ " has already been registered.")),
        σ)
  else (Normal tt, set_registry ({[name]} ∪ registry σ) σ).

(** A call of [initMetrics], lines 149-167: the histogram is constructed,
    then the counter, and the object holding both is returned. *)
Definition callInitMetrics (config : Config) (σ : State)
  : Completion (gmap string Instrument) * State :=
  match newInstrument "http_request_duration_miliseconds" σ with
  | (Throw e, σ1) => (Throw e, σ1)
  | (Normal _, σ1) =>
      match newInstrument "http_requests_total" σ1 with
      | (Throw e, σ2) => (Throw e, σ2)
      | (Normal _, σ2) => (Normal (initMetrics config), σ2)
      end
  end.

(** ** The router and the resolved path *)

(** A route's [spec.path] or [spec.url]. *)
Inductive RoutePath :=
| PathString (s : string)
| PathRegExp (r : RegExp).

Record RouteSpec := {
  spec_path : option RoutePath;   (* None: undefined *)
  spec_url : option RoutePath
}.

(** What [server.router.find] hands to its callback. *)
Inductive FindResult :=
| RouteFindError (message : string)
| RouteFound (spec : RouteSpec).

Definition Router : Type := Request → FindResult.

Definition routePath_truthy (v : option RoutePath) : bool :=
  match v with
  | None => false
  | Some (PathString s) => negb (bool_decide (s = ""))
  | Some (PathRegExp _) => true
  end.

(** [a || b] *)
Definition js_or (a b : option RoutePath) : option RoutePath :=
  if routePath_truthy a then a else b.

(** [RegExp.prototype.toString]: the source between slashes, then the flags. *)
Definition RegExp_toString (r : RegExp) : string :=
  "/" ++ source r ++ "/" ++ flags r.

(** Lines 209-219: [path] starts as [req.path()] and is replaced when the
    router found a route. *)
Definition resolvePath (req : Request) (found : FindResult) : Completion string :=
  let path := req_path req in
  match found with
  | RouteFindError _ => Normal path
  | RouteFound spec =>
      match js_or (spec_path spec) (spec_url spec) with
      | Some (PathRegExp r) => Normal ("RegExp(" ++ RegExp_toString r ++ ")")
      | Some (PathString s) => Normal s
      | None => Throw (TypeError "Cannot read property 'toString' of undefined")
      end
  end.

(** ** The response-finish callbacks *)

(** [res2.statusCode]; reading a property of [undefined] throws. *)
Definition read_statusCode (res2 : option Response) : Completion (option Z) :=
  match res2 with
  | None => Throw (TypeError "Cannot read property 'statusCode' of undefined")
  | Some r => Normal (statusCode r)
  end.

Definition truthy_number (v : option Z) : bool :=
  match v with
  | None => false
  | Some c => negb (bool_decide (c = 0))
  end.

(** [(res2 && res2.statusCode) ? res2.statusCode : 0] *)
Definition status_code_label (res2 : option Response) : Completion Z :=
  match (if bool_decide (is_Some res2)
         then completion_map truthy_number (read_statusCode res2)
         else Normal false) with
  | Throw e => Throw e
  | Normal true => completion_map (default 0) (read_statusCode res2)
  | Normal false => Normal 0
  end.

(** The body of a callback, run by [onFinished] with the response (or
    nothing) once the response has been sent. *)
Definition runFinishCallback (cb : FinishCallback) (res2 : option Response) (m : Recorded)
  : Completion unit * Recorded :=
  match status_code_label res2 with
  | Throw e => (Throw e, m)
  | Normal code =>
      match cb with
      | EndTimer path method =>
          (Normal tt,
           {| histogram_observations :=
                histogram_observations m
                ++ [{| l_path := path; l_method := method; l_status_code := code |}];
              counter_increments := counter_increments m |})
      | IncCounter path method =>
          (Normal tt,
           {| histogram_observations := histogram_observations m;
              counter_increments :=
                counter_increments m
                ++ [{| l_path := path; l_method := method; l_status_code := code |}] |})
      end
  end.

(** ** preMiddleware and the handler it returns *)

(** What the returned function closes over. *)
Record Closure := {
  cl_router : Router;                       (* server.router.find *)
  cl_config : Config;
  cl_pathLimiter : PathLimit;
  cl_metrics : gmap string Instrument
}.

Definition set_pathLimiter (l : PathLimit) (cl : Closure) : Closure :=
  {| cl_router := cl_router cl; cl_config := cl_config cl;
     cl_pathLimiter := l; cl_metrics := cl_metrics cl |}.

(** The callback given to [server.router.find], lines 207-259, without the
    diagnostics. *)
Definition handler (cl : Closure) (req : Request) (σ : State)
  : Completion unit * Closure * State :=
  let found := cl_router cl req in
  let routeFindError := match found with RouteFindError _ => true | RouteFound _ => false end in
  match resolvePath req found with
  | Throw e => (Throw e, cl, σ)
  | Normal path =>
      match shouldMeasure path (cl_config cl) σ with
      | (Throw e, σ1) => (Throw e, cl, σ1)
      | (Normal false, σ1) => (Normal tt, cl, emit Next σ1)
      | (Normal true, σ1) =>
          let σ2 :=
            if bool_decide (is_Some (cl_metrics cl !! "requestHistogram")) && negb routeFindError
            then emit (OnFinished (EndTimer path (req_method req)))
                      (emit (StartTimer path (req_method req)) σ1)
            else σ1 in
          let '(cl3, σ3) :=
            match cl_metrics cl !! "requestCounte" with
            | Some _ =>
                let '(granted, l1) := registerPath (cl_pathLimiter cl) path in
                (set_pathLimiter l1 cl,
                 if granted
                 then emit (OnFinished (IncCounter path (req_method req))) σ2
                 else σ2)
            | None => (cl, σ2)
            end in
          (Normal tt, cl3, emit Next σ3)
      end
  end.

(** The first argument of [preMiddleware]. *)
Inductive ServerArg :=
| SrvNotObject
| SrvNull
| SrvObject (router : option Router) (pre : bool).

Definition preMiddleware (server : ServerArg) (userConfig : UserConfigArg) (σ : State)
  : Completion Closure * State :=
  let σ0 := set_cache ∅ σ in
  match server with
  | SrvNotObject | SrvObject None _ | SrvObject _ false =>
      (Throw (TypeError "restify-prom-bundle.middleware() must take a restify server instance as first argument"), σ0)
  | SrvNull =>
      (Throw (TypeError "Cannot read property 'router' of null"), σ0)
  | SrvObject (Some router) true =>
      match checkConfig userConfig with
      | Throw e => (Throw e, σ0)
      | Normal config =>
          let σ1 := emit (DefaultMetrics (promBlacklist config) (promDefaultDelay config)) σ0 in
          let pathLimiter := PathLimit_new (maxPathsToCount config) in
          let σ2 := if truthy (route config) then emit (ServerPre (route config)) σ1 else σ1 in
          match callInitMetrics config σ2 with
          | (Throw e, σ3) => (Throw e, σ3)
          | (Normal metrics, σ3) =>
              (Normal {| cl_router := router; cl_config := config;
                         cl_pathLimiter := pathLimiter; cl_metrics := metrics |},
               σ3)
          end
      end
  end.

(** Events of one kind in a trace. *)
Definition is_StartTimer (e : Event) : bool :=
  match e with StartTimer _ _ => true | _ => false end.

Definition is_EndTimer_registration (e : Event) : bool :=
  match e with OnFinished (EndTimer _ _) => true | _ => false end.

Definition is_IncCounter_registration (e : Event) : bool :=
  match e with OnFinished (IncCounter _ _) => true | _ => false end.

(** The callbacks registered on the response, in order of registration. *)
Definition registered (t : list Event) : list FinishCallback :=
  omap (λ e, match e with OnFinished cb => Some cb | _ => None end) t.

(** The response finishes: every registered callback runs. *)
Fixpoint finish (cbs : list FinishCallback) (res2 : option Response) (m : Recorded)
  : Completion unit * Recorded :=
  match cbs with
  | [] => (Normal tt, m)
  | cb :: rest =>
      match runFinishCallback cb res2 m with
      | (Throw e, m1) => (Throw e, m1)
      | (Normal _, m1) => finish rest res2 m1
      end
  end.

(** The events one run of the handler adds to the trace. *)
Definition emitted (σ σ' : State) : list Event :=
  drop (List.length (trace σ)) (trace σ').

Definition is_Next (e : Event) : bool :=
  match e with Next => true | _ => false end.

(** One request after the other on the same instance; a request whose
    handling throws does not keep the later ones from being handled. *)
Fixpoint handlerRuns (cl : Closure) (reqs : list Request) (σ : State) : Closure * State :=
  match reqs with
  | [] => (cl, σ)
  | req :: rest =>
      let '(_, cl1, σ1) := handler cl req σ in
      handlerRuns cl1 rest σ1
  end.

(** [userConfig || {}] *)
Definition options_of (userConfig : UserConfigArg) : UserConfig :=
  match userConfig with
  | UArgObject o => o
  | _ => emptyObject
  end.

(** A configuration object passed back as the options of the caller: every
    option is an own property. *)
Definition options_of_config (config : Config) : UserConfig :=
  {| u_route := Some (route config);
     u_exclude := Some (exclude config);
     u_promBlacklist := Some (promBlacklist config);
     u_promDefaultDelay := Some (promDefaultDelay config);
     u_maxPathsToCount := Some (maxPathsToCount config) |}.

(** Every entry of the cache is the decision the literal list gives. *)
Definition cache_agrees_with_list (items : list string) (c : gmap string bool) : Prop :=
  ∀ p e, c !! p = Some e → e = bool_decide (p ∈ items).

End Model.

(** ** Sample inputs

    The user state is a counter of the calls made to a predicate. *)

Definition state0 : @State nat :=
  {| shouldMeasureExcludedCache := ∅; world := 0%nat; trace := []; registry := ∅ |}.

Definition config_excluding (ex : @JsValue nat) : @Config nat :=
  {| route := VString "/metrics";
     exclude := ex;
     promBlacklist := VArray [];
     promDefaultDelay := VNumber (Num 1000);
     maxPathsToCount := 100 |}.

Definition options_excluding (ex : @JsValue nat) : @UserConfigArg nat :=
  UArgObject {| u_route := None; u_exclude := Some ex; u_promBlacklist := None;
                u_promDefaultDelay := None; u_maxPathsToCount := None |}.

(** [() => { throw ... }] *)
Definition throwing_predicate : @JsFunction nat :=
  λ w _, (Throw (Raised "predicate failed"), w).

(** A predicate whose answer changes from one call to the next: truthy on
    its first, third, ... call. *)
Definition alternating_predicate : @JsFunction nat :=
  λ w _, (Normal (Nat.even w), S w).

(** A router with no route at all, and one with the single route [/^foo$/]. *)
Definition router_without_routes : @Router nat :=
  λ _, RouteFindError "ResourceNotFound".

Definition pattern_foo : @RegExp nat :=
  {| source := "^foo$"; flags := ""; test := λ w s, (bool_decide (s = "foo"), w) |}.

Definition router_with_pattern : @Router nat :=
  λ _, RouteFound {| spec_path := Some (PathRegExp pattern_foo); spec_url := None |}.

Definition router_with_template : @Router nat :=
  λ _, RouteFound {| spec_path := Some (PathString "/orders/:id"); spec_url := None |}.

(** A router whose route has neither [path] nor [url]. *)
Definition router_without_template : @Router nat :=
  λ _, RouteFound {| spec_path := None; spec_url := None |}.

Definition server_with (r : @Router nat) : @ServerArg nat :=
  SrvObject (Some r) true.

Definition get (path : string) : Request :=
  {| req_path := path; req_method := "GET" |}.

Definition nothing_recorded : Recorded :=
  {| histogram_observations := []; counter_increments := [] |}.

(** * Properties *)

(** ** The limiter *)

Lemma registerPath_max (l : PathLimit) (p : string) :
  maxDistinctPaths (snd (registerPath l p)) = maxDistinctPaths l.
Proof. unfold registerPath. repeat case_decide; reflexivity. Qed.

Lemma registerPath_subseteq (l : PathLimit) (p : string) :
  pathSet l ⊆ pathSet (snd (registerPath l p)).
Proof. unfold registerPath. repeat case_decide; simpl; set_solver. Qed.

Lemma size_add_new (s : gset string) (p : string) :
  p ∉ s → size ({[p]} ∪ s) = S (size s).
Proof.
  intros Hp. rewrite size_union by set_solver. by rewrite size_singleton.
Qed.

Lemma registerPath_bound (l : PathLimit) (p : string) :
  Z.of_nat (size (pathSet l)) ≤ maxDistinctPaths l →
  Z.of_nat (size (pathSet (snd (registerPath l p)))) ≤ maxDistinctPaths l.
Proof.
  intros Hle. unfold registerPath. repeat case_decide; simpl; try assumption.
  rewrite size_add_new by assumption. lia.
Qed.

Lemma registerPaths_inv (paths : list string) (l : PathLimit) :
  Z.of_nat (size (pathSet l)) ≤ maxDistinctPaths l →
  let l' := snd (registerPaths l paths) in
  maxDistinctPaths l' = maxDistinctPaths l
  ∧ Z.of_nat (size (pathSet l')) ≤ maxDistinctPaths l
  ∧ pathSet l ⊆ pathSet l'.
Proof.
  revert l. induction paths as [|p rest IH]; intros l Hle; simpl.
  - split; [reflexivity|]. split; [assumption|set_solver].
  - pose proof (registerPath_max l p) as Hmax.
    pose proof (registerPath_bound l p Hle) as Hb.
    pose proof (registerPath_subseteq l p) as Hsub.
    destruct (registerPath l p) as [b l1]; simpl in *.
    specialize (IH l1). rewrite Hmax in IH. specialize (IH Hb).
    destruct (registerPaths l1 rest) as [bs l2]; simpl in *.
    destruct IH as (IH1 & IH2 & IH3).
    split; [assumption|]. split; [assumption|set_solver].
Qed.

(** C3. Whatever calls a limiter built with a maximum [>= 0] has served, its
    set of granted paths holds at most that many paths; and in every such
    state a call for a member answers true and leaves the limiter as it is,
    a call for a new path below capacity answers true and inserts exactly
    that path, a call for a new path at capacity answers false and leaves
    the limiter as it is; a path of the set is in the set after any further
    calls. *)
Theorem C3_limiter_bounded_monotonic (maxPaths : Z) (paths : list string) :
  0 ≤ maxPaths →
  let l := snd (registerPaths (PathLimit_new maxPaths) paths) in
  maxDistinctPaths l = maxPaths
  ∧ Z.of_nat (size (pathSet l)) ≤ maxPaths
  ∧ (∀ p, p ∈ pathSet l → registerPath l p = (true, l))
  ∧ (∀ p, p ∉ pathSet l → Z.of_nat (size (pathSet l)) < maxPaths →
       ∃ l1, registerPath l p = (true, l1)
             ∧ pathSet l1 = {[p]} ∪ pathSet l
             ∧ size (pathSet l1) = S (size (pathSet l))
             ∧ maxDistinctPaths l1 = maxPaths)
  ∧ (∀ p, p ∉ pathSet l → Z.of_nat (size (pathSet l)) = maxPaths →
       registerPath l p = (false, l))
  ∧ (∀ p more, p ∈ pathSet l → p ∈ pathSet (snd (registerPaths l more))).
Proof.
  intros Hmax l.
  assert (Hinit : Z.of_nat (size (pathSet (PathLimit_new maxPaths)))
                  ≤ maxDistinctPaths (PathLimit_new maxPaths)).
  { cbn [PathLimit_new pathSet maxDistinctPaths]. rewrite size_empty. lia. }
  destruct (registerPaths_inv paths _ Hinit) as (Hm & Hb & _).
  fold l in Hm, Hb. simpl in Hm, Hb.
  split; [assumption|]. split; [assumption|].
  split; [|split; [|split]].
  - intros p Hp. unfold registerPath. by rewrite decide_True.
  - intros p Hp Hlt. unfold registerPath.
    rewrite decide_False by assumption.
    rewrite decide_True by (rewrite Hm; assumption).
    eexists. split; [reflexivity|]. simpl.
    split; [reflexivity|]. split; [by apply size_add_new|assumption].
  - intros p Hp Hfull. unfold registerPath.
    rewrite decide_False by assumption.
    rewrite decide_False by (rewrite Hm; lia). reflexivity.
  - intros p more Hp.
    assert (Hl : Z.of_nat (size (pathSet l)) ≤ maxDistinctPaths l) by (rewrite Hm; assumption).
    destruct (registerPaths_inv more l Hl) as (_ & _ & Hsub). set_solver.
Qed.

Lemma C3_limiter_witness :
  0 ≤ 2
  ∧ fst (registerPaths (PathLimit_new 2) ["/a"; "/b"; "/c"; "/a"]) = [true; true; false; true]
  ∧ Z.of_nat (size (pathSet (snd (registerPaths (PathLimit_new 2) ["/a"; "/b"; "/c"; "/a"])))) ≤ 2.
Proof.
  split; [lia|]. split; [vm_compute; reflexivity|].
  apply (C3_limiter_bounded_monotonic 2 ["/a"; "/b"; "/c"; "/a"]). lia.
Defined.

(** ** shouldMeasure *)

Section ShouldMeasure.
Context {W : Type}.
Implicit Types (config : @Config W) (σ : @State W) (p : string).

Lemma spec_excluded_evalExclude (ex : @JsValue W) p (w : W) :
  spec_excluded ex p w = evalExclude ex p w.
Proof.
  unfold spec_excluded, evalExclude.
  destruct ex as [| | | | |items|r|f|]; cbn [literal_list pattern_of predicate_of];
    try (rewrite bool_decide_false by apply not_elem_of_nil; reflexivity).
  - destruct (bool_decide (p ∈ items)); reflexivity.
  - rewrite bool_decide_false by apply not_elem_of_nil.
    destruct (test r w p) as [[] w1]; reflexivity.
Qed.

Lemma shouldMeasure_no_exclude p config σ :
  truthy (exclude config) = false → shouldMeasure p config σ = (Normal true, σ).
Proof. intros H. unfold shouldMeasure. by rewrite H. Qed.

Lemma shouldMeasure_miss p config σ :
  truthy (exclude config) = true →
  cache_intact (shouldMeasureExcludedCache σ) →
  shouldMeasureExcludedCache σ !! p = None →
  shouldMeasure p config σ =
    match evalExclude (exclude config) p (world σ) with
    | (Throw e, w1) => (Throw e, set_world w1 σ)
    | (Normal isExcluded, w1) =>
        (Normal (negb isExcluded),
         set_cache (js_set (shouldMeasureExcludedCache σ) p isExcluded) (set_world w1 σ))
    end.
Proof.
  intros Ht Hi Hp. unfold shouldMeasure, js_hasOwnProperty.
  rewrite Ht, Hi, Hp. rewrite bool_decide_false; [reflexivity|].
  by intros [? ?].
Qed.

Lemma shouldMeasure_hit p config σ (isExcluded : bool) :
  truthy (exclude config) = true →
  cache_intact (shouldMeasureExcludedCache σ) →
  shouldMeasureExcludedCache σ !! p = Some isExcluded →
  shouldMeasure p config σ = (Normal (negb isExcluded), σ).
Proof.
  intros Ht Hi Hp. unfold shouldMeasure, js_hasOwnProperty, js_get.
  rewrite Ht, Hi, Hp. rewrite bool_decide_true by eauto. reflexivity.
Qed.

Lemma shouldMeasure_shadowed p config σ :
  truthy (exclude config) = true →
  ¬ cache_intact (shouldMeasureExcludedCache σ) →
  ∃ msg, shouldMeasure p config σ = (Throw (TypeError msg), σ).
Proof.
  intros Ht Hi. unfold shouldMeasure, js_hasOwnProperty, cache_intact in *.
  rewrite Ht. destruct (shouldMeasureExcludedCache σ !! "hasOwnProperty"); [|done].
  eauto.
Qed.

Lemma js_set_lookup_ne (o : gmap string bool) (key p : string) (v : bool) :
  key ≠ p → js_set o key v !! p = o !! p.
Proof.
  intros Hne. unfold js_set. case_decide; [reflexivity|].
  by rewrite lookup_insert_ne.
Qed.

Lemma js_set_lookup_eq (o : gmap string bool) (p : string) (v : bool) :
  p ≠ "__proto__" → js_set o p v !! p = Some v.
Proof.
  intros Hne. unfold js_set. rewrite decide_False by assumption.
  apply lookup_insert_eq.
Qed.

(** An entry of the cache is never removed or changed by [shouldMeasure]. *)
Lemma shouldMeasure_keeps_entries q config σ p (e : bool) :
  shouldMeasureExcludedCache σ !! p = Some e →
  shouldMeasureExcludedCache (snd (shouldMeasure q config σ)) !! p = Some e.
Proof.
  intros Hp. unfold shouldMeasure.
  destruct (truthy (exclude config)); [|assumption].
  unfold js_hasOwnProperty.
  destruct (shouldMeasureExcludedCache σ !! "hasOwnProperty"); [assumption|].
  case_bool_decide as Hq; [assumption|].
  destruct (evalExclude (exclude config) q (world σ)) as [[isExcluded|err] w1];
    simpl; [|assumption].
  rewrite js_set_lookup_ne; [assumption|].
  intros ->. apply Hq. eauto.
Qed.

Lemma shouldMeasureCalls_keeps_entries calls σ p (e : bool) :
  shouldMeasureExcludedCache σ !! p = Some e →
  shouldMeasureExcludedCache (shouldMeasureCalls calls σ) !! p = Some e.
Proof.
  revert σ. induction calls as [|[q config] rest IH]; intros σ Hp; simpl.
  - assumption.
  - apply IH. by apply shouldMeasure_keeps_entries.
Qed.

(** Once a call has answered, the answer is in the cache. *)
Lemma shouldMeasure_records p config σ (b : bool) σ1 :
  truthy (exclude config) = true →
  p ≠ "__proto__" →
  shouldMeasure p config σ = (Normal b, σ1) →
  shouldMeasureExcludedCache σ1 !! p = Some (negb b).
Proof.
  intros Ht Hne. unfold shouldMeasure. rewrite Ht.
  unfold js_hasOwnProperty, js_get.
  destruct (shouldMeasureExcludedCache σ !! "hasOwnProperty"); [discriminate|].
  case_bool_decide as Hq.
  - destruct Hq as [e He]. rewrite He. simpl. intros [= <- <-].
    by rewrite negb_involutive.
  - destruct (evalExclude (exclude config) p (world σ)) as [[isExcluded|err] w1];
      [|discriminate].
    intros [= <- <-]. simpl. rewrite negb_involutive.
    by apply js_set_lookup_eq.
Qed.

Lemma shouldMeasure_trace p config σ :
  trace (snd (shouldMeasure p config σ)) = trace σ.
Proof.
  unfold shouldMeasure. destruct (truthy (exclude config)); [|reflexivity].
  destruct (js_hasOwnProperty _ _) as [[]|]; try reflexivity.
  destruct (evalExclude _ _ _) as [[]]; reflexivity.
Qed.

(** With the cache answering and the predicate, if any, returning, the call
    returns. *)
Lemma shouldMeasure_returns p config σ :
  cache_intact (shouldMeasureExcludedCache σ) →
  (∀ f, exclude config = VFunction f → is_normal (fst (f (world σ) p)) = true) →
  ∃ (b : bool) (σ1 : @State W),
    shouldMeasure p config σ = (Normal b, σ1)
    ∧ trace σ1 = trace σ
    ∧ (shouldMeasureExcludedCache σ1 = shouldMeasureExcludedCache σ
       ∨ shouldMeasureExcludedCache σ1 = js_set (shouldMeasureExcludedCache σ) p (negb b))
    ∧ (instanceofRegExp (exclude config) = false →
       typeofFunction (exclude config) = false →
       world σ1 = world σ).
Proof.
  intros Hintact Hpred.
  destruct (truthy (exclude config)) eqn:Ht.
  - destruct (shouldMeasureExcludedCache σ !! p) as [e|] eqn:Hp.
    + exists (negb e), σ.
      rewrite (shouldMeasure_hit p config σ e) by assumption. auto.
    + rewrite shouldMeasure_miss by assumption.
      destruct (exclude config) as [| | | | |items|r|f|] eqn:Hex; simpl;
        try (eexists _, _; split; [reflexivity|]; simpl;
             rewrite ?negb_involutive; destruct σ; auto; fail).
      * destruct (test r (world σ) p) as [m w1].
        eexists _, _. split; [reflexivity|]. simpl.
        rewrite negb_involutive. split; [reflexivity|]. split; [auto|].
        discriminate.
      * specialize (Hpred f eq_refl).
        destruct (f (world σ) p) as [[v|err] w1]; [|discriminate].
        eexists _, _. split; [reflexivity|]. simpl.
        rewrite negb_involutive. split; [reflexivity|]. split; [auto|].
        discriminate.
  - exists true, σ. rewrite shouldMeasure_no_exclude by assumption. auto.
Qed.

End ShouldMeasure.

(** C2, as stated, fails where the cache already holds something.  An
    entry is shared by all configurations: [/health], answered under a
    configuration that lists it, is answered false again under a
    configuration whose rules do not exclude it.  And once the path
    [hasOwnProperty] has been answered, a path met for the first time and
    excluded by no rule does not get true: the call throws. *)
Lemma C2_fails_on_shared_or_shadowed_cache :
  fst (spec_excluded (exclude (config_excluding (VArray ["/other"]))) "/health" 0%nat)
  = Normal false
  ∧ fst (shouldMeasure "/health" (config_excluding (VArray ["/other"]))
           (snd (shouldMeasure "/health" (config_excluding (VArray ["/health"])) state0)))
    = Normal false
  ∧ shouldMeasureExcludedCache
      (snd (shouldMeasure "hasOwnProperty" (config_excluding (VArray ["/health"])) state0))
    !! "/x" = None
  ∧ fst (spec_excluded (exclude (config_excluding (VArray ["/health"]))) "/x" 0%nat)
    = Normal false
  ∧ fst (shouldMeasure "/x" (config_excluding (VArray ["/health"]))
           (snd (shouldMeasure "hasOwnProperty"
                   (config_excluding (VArray ["/health"])) state0)))
    = Throw (TypeError "shouldMeasureExcludedCache.hasOwnProperty is not a function").
Proof.
  split; [vm_compute; reflexivity|]. split; [reflexivity|].
  split; [vm_compute; reflexivity|]. split; [vm_compute; reflexivity|]. reflexivity.
Qed.

(** C2, amended. On the first encounter of a path (no entry for it in the
    cache, the cache still answering [hasOwnProperty]), [shouldMeasure]
    answers false exactly when the rules exclude the path, the rules being
    tried in the order literal list, pattern, predicate, and true when none
    applies (what a predicate throws is the outcome); when there is no
    exclusion setting it answers true, whatever the state. *)
Theorem C2_shouldMeasure_first_encounter {W : Type}
    (p : string) (config : @Config W) (σ : @State W) :
  shouldMeasureExcludedCache σ !! p = None →
  cache_intact (shouldMeasureExcludedCache σ) →
  fst (shouldMeasure p config σ)
  = completion_map negb (fst (spec_excluded (exclude config) p (world σ)))
  ∧ (fst (shouldMeasure p config σ) = Normal false
     ↔ fst (spec_excluded (exclude config) p (world σ)) = Normal true)
  ∧ (fst (spec_excluded (exclude config) p (world σ)) = Normal false
     → fst (shouldMeasure p config σ) = Normal true)
  ∧ (truthy (exclude config) = false
     → ∀ σ' : @State W, shouldMeasure p config σ' = (Normal true, σ')).
Proof.
  intros Hmiss Hintact.
  assert (Heq : fst (shouldMeasure p config σ)
                = completion_map negb (fst (spec_excluded (exclude config) p (world σ)))).
  { destruct (truthy (exclude config)) eqn:Ht.
    - rewrite shouldMeasure_miss by assumption.
      rewrite spec_excluded_evalExclude.
      destruct (evalExclude _ _ _) as [[]]; reflexivity.
    - rewrite shouldMeasure_no_exclude by assumption.
      rewrite spec_excluded_evalExclude.
      destruct (exclude config) as [| |[]|[| |]|s| | | |]; simpl in *;
        try discriminate; reflexivity. }
  split; [exact Heq|]. split; [|split].
  - rewrite Heq. destruct (fst (spec_excluded _ _ _)) as [[]|]; simpl;
      split; congruence.
  - intros Hs. rewrite Heq, Hs. reflexivity.
  - intros Ht σ'. by apply shouldMeasure_no_exclude.
Qed.

Lemma C2_shouldMeasure_witness :
  fst (shouldMeasure "/health" (config_excluding (VArray ["/health"])) state0) = Normal false
  ∧ fst (shouldMeasure "/users/:id" (config_excluding (VArray ["/health"])) state0) = Normal true.
Proof.
  split.
  - apply (C2_shouldMeasure_first_encounter "/health"
             (config_excluding (VArray ["/health"])) state0);
      [reflexivity | reflexivity | vm_compute; reflexivity].
  - apply (C2_shouldMeasure_first_encounter "/users/:id"
             (config_excluding (VArray ["/health"])) state0);
      [reflexivity | reflexivity | vm_compute; reflexivity].
Defined.

(** C6, as stated, fails: the decision of one instance is computed again
    once [preMiddleware] has been called a second time (the call empties the
    cache before anything else, so the outcome of the second construction
    does not matter).  The first instance excludes by a predicate that
    answers differently on each call; its decision for [/x] is false before
    the second call of [preMiddleware], and true after it, the predicate
    having been called a second time. *)
Lemma C6_recomputed_after_second_construction :
  ∃ instanceA σA σ1 σ2,
    preMiddleware (server_with router_without_routes)
                  (options_excluding (VFunction alternating_predicate)) state0
    = (Normal instanceA, σA)
    ∧ shouldMeasure "/x" (cl_config instanceA) σA = (Normal false, σ1)
    ∧ world σ1 = 1%nat
    ∧ shouldMeasure "/x" (cl_config instanceA)
        (snd (preMiddleware (server_with router_without_routes) UArgUndefined σ1))
      = (Normal true, σ2)
    ∧ world σ2 = 2%nat.
Proof.
  do 4 eexists.
  split; [vm_compute; reflexivity|]. split; [reflexivity|]. split; [reflexivity|].
  split; [vm_compute; reflexivity|]. reflexivity.
Qed.

(** C6, amended. Once a call [shouldMeasure(p, config)] has answered, every
    later call with the same arguments gives the same answer and changes
    nothing at all (no rule is evaluated again, not even a predicate that
    would now answer otherwise), whatever calls of [shouldMeasure] were made
    in between, as long as no instance was constructed in between.  The path
    [__proto__] is left out, and so are states in which the cache no longer
    answers [hasOwnProperty]. *)
Theorem C6_decision_cached_between_constructions {W : Type}
    (p : string) (config : @Config W) (σ σ1 : @State W) (b : bool)
    (calls : list (string * @Config W)) :
  p ≠ "__proto__" →
  shouldMeasure p config σ = (Normal b, σ1) →
  cache_intact (shouldMeasureExcludedCache (shouldMeasureCalls calls σ1)) →
  shouldMeasure p config (shouldMeasureCalls calls σ1)
  = (Normal b, shouldMeasureCalls calls σ1).
Proof.
  intros Hne Hfirst Hintact.
  destruct (truthy (exclude config)) eqn:Ht.
  - pose proof (shouldMeasure_records p config σ b σ1 Ht Hne Hfirst) as Hrec.
    pose proof (shouldMeasureCalls_keeps_entries calls σ1 p _ Hrec) as Hkept.
    rewrite (shouldMeasure_hit p config _ (negb b)) by assumption.
    by rewrite negb_involutive.
  - rewrite shouldMeasure_no_exclude in Hfirst by assumption.
    injection Hfirst as <- <-.
    by apply shouldMeasure_no_exclude.
Qed.

Lemma C6_decision_cached_witness :
  shouldMeasure "/x" (config_excluding (VFunction alternating_predicate))
    (shouldMeasureCalls [("/y", config_excluding (VFunction alternating_predicate))]
       (snd (shouldMeasure "/x" (config_excluding (VFunction alternating_predicate)) state0)))
  = (Normal false,
     shouldMeasureCalls [("/y", config_excluding (VFunction alternating_predicate))]
       (snd (shouldMeasure "/x" (config_excluding (VFunction alternating_predicate)) state0))).
Proof.
  apply (C6_decision_cached_between_constructions "/x"
           (config_excluding (VFunction alternating_predicate)) state0).
  - discriminate.
  - reflexivity.
  - vm_compute. reflexivity.
Defined.

(** C9, as stated, fails: a predicate is a valid exclusion setting, and when
    it throws, [shouldMeasure] throws what it threw. *)
Lemma C9_throwing_predicate_propagates :
  checkConfig (options_excluding (VFunction throwing_predicate))
  = Normal (config_excluding (VFunction throwing_predicate))
  ∧ shouldMeasure "/x" (config_excluding (VFunction throwing_predicate)) state0
    = (Throw (Raised "predicate failed"), state0).
Proof. split; reflexivity. Qed.

(** C9, amended. Whenever the predicate, if the setting is one, returns when
    applied to the path, [shouldMeasure] returns a boolean; it makes no call
    on any collaborator, leaves the cache as it is or adds the entry of this
    path, and leaves the user state as it is unless it runs a pattern or a
    predicate.  When the predicate throws on a path that has no entry, the
    exception is the outcome and the cache is left as it is.  States in which
    the cache no longer answers [hasOwnProperty] are left out. *)
Theorem C9_shouldMeasure_returns_unless_predicate_throws {W : Type}
    (p : string) (config : @Config W) (σ : @State W) :
  cache_intact (shouldMeasureExcludedCache σ) →
  ((∀ f, exclude config = VFunction f → is_normal (fst (f (world σ) p)) = true) →
   ∃ (b : bool) (σ1 : @State W),
     shouldMeasure p config σ = (Normal b, σ1)
     ∧ trace σ1 = trace σ
     ∧ (shouldMeasureExcludedCache σ1 = shouldMeasureExcludedCache σ
        ∨ shouldMeasureExcludedCache σ1 = js_set (shouldMeasureExcludedCache σ) p (negb b))
     ∧ (instanceofRegExp (exclude config) = false →
        typeofFunction (exclude config) = false →
        world σ1 = world σ))
  ∧ (∀ f e w1,
       exclude config = VFunction f →
       shouldMeasureExcludedCache σ !! p = None →
       f (world σ) p = (Throw e, w1) →
       shouldMeasure p config σ = (Throw e, set_world w1 σ)
       ∧ shouldMeasureExcludedCache (set_world w1 σ) = shouldMeasureExcludedCache σ).
Proof.
  intros Hintact. split.
  - by apply shouldMeasure_returns.
  - intros f e w1 Hex Hp Hf.
    rewrite shouldMeasure_miss; [| by rewrite Hex | assumption | assumption].
    rewrite Hex. simpl. rewrite Hf. split; reflexivity.
Qed.

Lemma C9_shouldMeasure_returns_witness :
  ∃ (b : bool) (σ1 : @State nat),
    shouldMeasure "/x" (config_excluding (VFunction alternating_predicate)) state0
    = (Normal b, σ1)
    ∧ trace σ1 = trace state0.
Proof.
  destruct (C9_shouldMeasure_returns_unless_predicate_throws "/x"
              (config_excluding (VFunction alternating_predicate)) state0) as [Hreturns _].
  - reflexivity.
  - destruct Hreturns as (b & σ1 & Hcall & Htrace & _).
    + intros f [= <-]. reflexivity.
    + exists b, σ1. split; assumption.
Defined.

(** The two keys the statements above leave out.  Once the path
    [hasOwnProperty] has been answered, it is an own property of the cache,
    and every later call with an exclusion setting throws; the path
    [__proto__] never gets an entry, so its decision is computed at every
    call. *)
Example hasOwnProperty_path_shadows_the_method :
  fst (shouldMeasure "hasOwnProperty" (config_excluding (VArray ["/health"])) state0)
  = Normal true
  ∧ fst (shouldMeasure "/x" (config_excluding (VArray ["/health"]))
           (snd (shouldMeasure "hasOwnProperty"
                   (config_excluding (VArray ["/health"])) state0)))
    = Throw (TypeError "shouldMeasureExcludedCache.hasOwnProperty is not a function").
Proof. split; reflexivity. Qed.

Example proto_path_is_never_cached :
  fst (shouldMeasure "__proto__" (config_excluding (VFunction alternating_predicate)) state0)
  = Normal false
  ∧ fst (shouldMeasure "__proto__" (config_excluding (VFunction alternating_predicate))
           (snd (shouldMeasure "__proto__"
                   (config_excluding (VFunction alternating_predicate)) state0)))
    = Normal true.
Proof. split; reflexivity. Qed.

(** ** The constructor and the cache *)

Section InitMetricsCalls.
Context {W : Type}.
Implicit Types (config : @Config W) (σ : @State W).

Lemma newInstrument_frame (name : string) σ :
  shouldMeasureExcludedCache (snd (newInstrument name σ)) = shouldMeasureExcludedCache σ
  ∧ world (snd (newInstrument name σ)) = world σ
  ∧ trace (snd (newInstrument name σ)) = trace σ.
Proof. unfold newInstrument. case_decide; auto. Qed.

(** Constructing the instruments touches the registry and nothing else. *)
Lemma callInitMetrics_frame config σ :
  shouldMeasureExcludedCache (snd (callInitMetrics config σ)) = shouldMeasureExcludedCache σ
  ∧ world (snd (callInitMetrics config σ)) = world σ
  ∧ trace (snd (callInitMetrics config σ)) = trace σ.
Proof.
  unfold callInitMetrics.
  destruct (newInstrument_frame "http_request_duration_miliseconds" σ) as (Hc & Hw & Ht).
  destruct (newInstrument "http_request_duration_miliseconds" σ) as [[[]|e] σ1];
    simpl in *; [|auto].
  destruct (newInstrument_frame "http_requests_total" σ1) as (Hc2 & Hw2 & Ht2).
  destruct (newInstrument "http_requests_total" σ1) as [[[]|e] σ2]; simpl in *;
    rewrite Hc2, Hw2, Ht2; auto.
Qed.

Lemma callInitMetrics_value config σ σ1 (metrics : gmap string Instrument) :
  callInitMetrics config σ = (Normal metrics, σ1) → metrics = initMetrics config.
Proof.
  unfold callInitMetrics.
  destruct (newInstrument "http_request_duration_miliseconds" σ) as [[[]|e] σa];
    [|discriminate].
  destruct (newInstrument "http_requests_total" σa) as [[[]|e] σb]; [|discriminate].
  by intros [= <- _].
Qed.

(** The call returns exactly when neither name is in the registry. *)
Lemma callInitMetrics_free config σ :
  "http_request_duration_miliseconds" ∉ registry σ →
  "http_requests_total" ∉ registry σ →
  callInitMetrics config σ
  = (Normal (initMetrics config),
     set_registry ({["http_requests_total"]}
                   ∪ ({["http_request_duration_miliseconds"]} ∪ registry σ)) σ).
Proof.
  intros Hh Hc. unfold callInitMetrics, newInstrument.
  rewrite decide_False by assumption. simpl.
  rewrite decide_False; [reflexivity|].
  rewrite elem_of_union, elem_of_singleton. intros [Heq | Hin]; [discriminate|contradiction].
Qed.

Lemma callInitMetrics_taken config σ :
  "http_request_duration_miliseconds" ∈ registry σ
  ∨ "http_requests_total" ∈ registry σ →
  ∃ msg, fst (callInitMetrics config σ) = Throw (Error msg).
Proof.
  intros Htaken. unfold callInitMetrics, newInstrument.
  destruct (decide ("http_request_duration_miliseconds" ∈ registry σ)); simpl; [eauto|].
  rewrite decide_True; [simpl; eauto|].
  destruct Htaken as [? | ?]; [contradiction|].
  rewrite elem_of_union. by right.
Qed.

End InitMetricsCalls.

Lemma preMiddleware_cache {W : Type}
    (server : @ServerArg W) (userConfig : @UserConfigArg W) (σ : @State W) :
  shouldMeasureExcludedCache (snd (preMiddleware server userConfig σ)) = ∅
  ∧ world (snd (preMiddleware server userConfig σ)) = world σ.
Proof.
  unfold preMiddleware.
  destruct server as [| |[router|] []]; simpl; auto.
  destruct (checkConfig userConfig) as [config|e]; simpl; auto.
  match goal with
  | |- context [callInitMetrics config ?τ] =>
      destruct (callInitMetrics_frame config τ) as (Hc & Hw & _);
      destruct (callInitMetrics config τ) as [[metrics|e] σ3]
  end; simpl in *; rewrite Hc, Hw;
    destruct (truthy (route config)); auto.
Qed.

Lemma preMiddleware_metrics {W : Type}
    (server : @ServerArg W) (userConfig : @UserConfigArg W) (σ σ1 : @State W)
    (cl : @Closure W) :
  preMiddleware server userConfig σ = (Normal cl, σ1) →
  cl_metrics cl = initMetrics (cl_config cl)
  ∧ checkConfig userConfig = Normal (cl_config cl)
  ∧ cl_pathLimiter cl = PathLimit_new (maxPathsToCount (cl_config cl)).
Proof.
  unfold preMiddleware.
  destruct server as [| |[router|] []]; try discriminate.
  destruct (checkConfig userConfig) as [config|e]; [|discriminate].
  match goal with
  | |- context [callInitMetrics config ?τ] =>
      pose proof (callInitMetrics_value config τ) as Hvalue;
      destruct (callInitMetrics config τ) as [[metrics|e] σ3]
  end; [|discriminate].
  intros [= <- _]. simpl. split; [by eapply Hvalue|]. auto.
Qed.

(** C10. The cache is a field of the module state, read and written by the
    calls of every instance, and every call of [preMiddleware], whatever its
    arguments and whether it succeeds or throws, leaves it empty: no path has
    an entry afterwards, and the next call of [shouldMeasure] by an instance
    constructed earlier evaluates that instance's rules anew.  Between
    constructions the entries are shared: an answer recorded by a call with
    one configuration is the answer given to a call with another. *)
Theorem C10_cache_shared_and_reset_by_construction {W : Type}
    (server : @ServerArg W) (userConfig : @UserConfigArg W) (σ : @State W) :
  let σ' := snd (preMiddleware server userConfig σ) in
  shouldMeasureExcludedCache σ' = ∅
  ∧ (∀ p : string, shouldMeasureExcludedCache σ' !! p = None)
  ∧ (∀ (p : string) (earlier : @Config W),
       truthy (exclude earlier) = true →
       fst (shouldMeasure p earlier σ')
       = completion_map negb (fst (evalExclude (exclude earlier) p (world σ))))
  ∧ (∀ (p : string) (configA configB : @Config W) (τ τ1 : @State W) (b : bool),
       truthy (exclude configA) = true →
       truthy (exclude configB) = true →
       p ≠ "__proto__" →
       shouldMeasure p configA τ = (Normal b, τ1) →
       cache_intact (shouldMeasureExcludedCache τ1) →
       shouldMeasure p configB τ1 = (Normal b, τ1)).
Proof.
  intros σ'. destruct (preMiddleware_cache server userConfig σ) as [Hc Hw].
  fold σ' in Hc, Hw.
  split; [assumption|]. split; [|split].
  - intros p. rewrite Hc. apply lookup_empty.
  - intros p earlier Ht.
    rewrite shouldMeasure_miss; [| assumption | | ].
    + rewrite Hw. destruct (evalExclude _ _ _) as [[]]; reflexivity.
    + unfold cache_intact. rewrite Hc. apply lookup_empty.
    + rewrite Hc. apply lookup_empty.
  - intros p configA configB τ τ1 b HtA HtB Hne Hcall Hintact.
    pose proof (shouldMeasure_records p configA τ b τ1 HtA Hne Hcall) as Hrec.
    rewrite (shouldMeasure_hit p configB τ1 (negb b)) by assumption.
    by rewrite negb_involutive.
Qed.

Lemma C10_cache_shared_witness :
  shouldMeasure "/health" (config_excluding (VArray ["/other"]))
    (snd (shouldMeasure "/health" (config_excluding (VArray ["/health"])) state0))
  = (Normal false,
     snd (shouldMeasure "/health" (config_excluding (VArray ["/health"])) state0)).
Proof.
  destruct (C10_cache_shared_and_reset_by_construction
              (server_with router_without_routes) UArgUndefined state0)
    as (_ & _ & _ & Hshared).
  apply (Hshared "/health" (config_excluding (VArray ["/health"]))
                 (config_excluding (VArray ["/other"])) state0).
  - reflexivity.
  - reflexivity.
  - discriminate.
  - reflexivity.
  - vm_compute. reflexivity.
Defined.

(** ** The handler *)

Section Handler.
Context {W : Type}.
Implicit Types (cl : @Closure W) (σ : @State W) (req : Request).

Lemma initMetrics_requestHistogram (config : @Config W) :
  initMetrics config !! "requestHistogram" = Some Histogram.
Proof.
  unfold initMetrics. rewrite lookup_insert_ne by discriminate.
  apply lookup_insert_eq.
Qed.

(** The object [initMetrics] builds has no property [requestCounte]. *)
Lemma initMetrics_requestCounte (config : @Config W) :
  initMetrics config !! "requestCounte" = None.
Proof.
  unfold initMetrics. rewrite !lookup_insert_ne by discriminate.
  apply lookup_empty.
Qed.

(** What the handler does, once the two property reads on the metrics
    object are resolved: the closure is returned as it was, and no callback
    that increments the counter is ever registered. *)
Lemma handler_with_initMetrics cl req σ :
  cl_metrics cl = initMetrics (cl_config cl) →
  handler cl req σ =
    match resolvePath req (cl_router cl req) with
    | Throw e => (Throw e, cl, σ)
    | Normal path =>
        match shouldMeasure path (cl_config cl) σ with
        | (Throw e, σ1) => (Throw e, cl, σ1)
        | (Normal false, σ1) => (Normal tt, cl, emit Next σ1)
        | (Normal true, σ1) =>
            (Normal tt, cl,
             emit Next
               match cl_router cl req with
               | RouteFound _ =>
                   emit (OnFinished (EndTimer path (req_method req)))
                        (emit (StartTimer path (req_method req)) σ1)
               | RouteFindError _ => σ1
               end)
        end
    end.
Proof.
  intros Hm. unfold handler.
  rewrite Hm, initMetrics_requestHistogram, initMetrics_requestCounte.
  destruct (resolvePath req (cl_router cl req)) as [path|e]; [|reflexivity].
  destruct (shouldMeasure path (cl_config cl) σ) as [[[]|e] σ1]; try reflexivity.
  rewrite bool_decide_true by eauto.
  destruct (cl_router cl req); reflexivity.
Qed.

Lemma emitted_app σ σ' (evs : list (@Event W)) :
  trace σ' = (trace σ ++ evs)%list → emitted σ σ' = evs.
Proof. intros Ht. unfold emitted. rewrite Ht. apply drop_app_length. Qed.

(** The events of a run, by the outcome of route resolution and of
    [shouldMeasure]. *)
Lemma handler_emitted cl req σ :
  cl_metrics cl = initMetrics (cl_config cl) →
  emitted σ (snd (handler cl req σ)) =
    match resolvePath req (cl_router cl req) with
    | Throw _ => []
    | Normal path =>
        match fst (shouldMeasure path (cl_config cl) σ) with
        | Throw _ => []
        | Normal false => [Next]
        | Normal true =>
            match cl_router cl req with
            | RouteFound _ =>
                [StartTimer path (req_method req);
                 OnFinished (EndTimer path (req_method req)); Next]
            | RouteFindError _ => [Next]
            end
        end
    end.
Proof.
  intros Hm. apply emitted_app. rewrite handler_with_initMetrics by assumption.
  destruct (resolvePath req (cl_router cl req)) as [path|e]; simpl.
  { pose proof (shouldMeasure_trace path (cl_config cl) σ) as Ht.
    destruct (shouldMeasure path (cl_config cl) σ) as [[[]|e] σ1]; simpl in *.
    - destruct (cl_router cl req); simpl; rewrite Ht, <- ?app_assoc; reflexivity.
    - by rewrite Ht.
    - by rewrite Ht, app_nil_r. }
  by rewrite app_nil_r.
Qed.

End Handler.

Section HandlerProperties.
Context {W : Type}.
Implicit Types (cl : @Closure W) (σ : @State W) (req : Request).

(** No run of the handler registers the callback that increments the
    counter, and none consults the limiter. *)
Lemma handler_never_counts cl req σ :
  cl_metrics cl = initMetrics (cl_config cl) →
  existsb is_IncCounter_registration (emitted σ (snd (handler cl req σ))) = false
  ∧ snd (fst (handler cl req σ)) = cl.
Proof.
  intros Hm. split.
  - rewrite handler_emitted by assumption.
    destruct (resolvePath req (cl_router cl req)) as [path|e]; [|reflexivity].
    destruct (fst (shouldMeasure path (cl_config cl) σ)) as [[]|e]; try reflexivity.
    destruct (cl_router cl req); reflexivity.
  - rewrite handler_with_initMetrics by assumption.
    destruct (resolvePath req (cl_router cl req)) as [path|e]; [|reflexivity].
    destruct (shouldMeasure path (cl_config cl) σ) as [[[]|e] σ1]; reflexivity.
Qed.

(** The handler returns, having called [next], whenever the route it is
    given has a template, the cache answers and the predicate returns. *)
Lemma handler_returns cl req σ (path : string) :
  cl_metrics cl = initMetrics (cl_config cl) →
  resolvePath req (cl_router cl req) = Normal path →
  cache_intact (shouldMeasureExcludedCache σ) →
  (∀ f, exclude (cl_config cl) = VFunction f → is_normal (fst (f (world σ) path)) = true) →
  ∃ σ1, handler cl req σ = (Normal tt, cl, σ1)
        ∧ last (trace σ1) = Some Next.
Proof.
  intros Hm Hpath Hintact Hpred.
  rewrite handler_with_initMetrics by assumption. rewrite Hpath.
  destruct (shouldMeasure_returns path (cl_config cl) σ Hintact Hpred)
    as (b & σ1 & Hcall & _).
  rewrite Hcall. destruct b; eexists; (split; [reflexivity|]); simpl;
    apply last_snoc.
Qed.

End HandlerProperties.

(** C4. In a run of the handler a timer is started exactly when the router
    found a route and [shouldMeasure] answered true for the resolved path,
    and the callback that ends the timer is registered in exactly the same
    runs; the timer is then keyed by the resolved path and the method.  When
    the router found no route, neither happens, whatever the configuration,
    the cache and the limiter hold. *)
Theorem C4_timer_iff_route_found_and_measured {W : Type}
    (cl : @Closure W) (req : Request) (σ : @State W) :
  cl_metrics cl = initMetrics (cl_config cl) →
  let evs := emitted σ (snd (handler cl req σ)) in
  let timed :=
    ∃ spec path,
      cl_router cl req = RouteFound spec
      ∧ resolvePath req (RouteFound spec) = Normal path
      ∧ fst (shouldMeasure path (cl_config cl) σ) = Normal true in
  (existsb is_StartTimer evs = true ↔ timed)
  ∧ (existsb is_EndTimer_registration evs = true ↔ timed)
  ∧ (∀ spec path,
       cl_router cl req = RouteFound spec →
       resolvePath req (RouteFound spec) = Normal path →
       fst (shouldMeasure path (cl_config cl) σ) = Normal true →
       evs = [StartTimer path (req_method req);
              OnFinished (EndTimer path (req_method req)); Next])
  ∧ (∀ message,
       cl_router cl req = RouteFindError message →
       existsb is_StartTimer evs = false
       ∧ existsb is_EndTimer_registration evs = false).
Proof.
  intros Hm evs timed. subst evs timed.
  rewrite handler_emitted by assumption.
  destruct (cl_router cl req) as [message|spec] eqn:Hr.
  - simpl resolvePath. cbv iota.
    destruct (fst (shouldMeasure (req_path req) (cl_config cl) σ)) as [[]|e];
      simpl; repeat split; try discriminate;
      intros (spec & path & Hfound & _); discriminate.
  - destruct (resolvePath req (RouteFound spec)) as [path|e] eqn:Hp;
      [destruct (fst (shouldMeasure path (cl_config cl) σ)) as [[]|e] eqn:Hs|];
      cbn -[resolvePath shouldMeasure]; repeat split; try discriminate;
      try (intros; congruence);
      try (intros (spec' & path' & Hfound & Hp' & Hs'); congruence).
    all: intros _; exists spec, path; auto.
Qed.

Lemma C4_timer_witness :
  emitted state0
    (snd (handler {| cl_router := router_with_template;
                     cl_config := config_excluding (VArray ["/health"]);
                     cl_pathLimiter := PathLimit_new 100;
                     cl_metrics := initMetrics (config_excluding (VArray ["/health"])) |}
                  (get "/orders/7") state0))
  = [StartTimer "/orders/:id" "GET"; OnFinished (EndTimer "/orders/:id" "GET"); Next].
Proof.
  destruct (C4_timer_iff_route_found_and_measured
              {| cl_router := router_with_template;
                 cl_config := config_excluding (VArray ["/health"]);
                 cl_pathLimiter := PathLimit_new 100;
                 cl_metrics := initMetrics (config_excluding (VArray ["/health"])) |}
              (get "/orders/7") state0) as (_ & _ & Hevents & _).
  - reflexivity.
  - apply (Hevents {| spec_path := Some (PathString "/orders/:id"); spec_url := None |}
                   "/orders/:id"); reflexivity.
Defined.

(** C1. The claim does not hold of the code: the guard of the counting
    branch reads the property [requestCounte] of the metrics object, which
    [initMetrics] never sets, so the branch is dead.  A GET request to the
    unmatched path [/does-not-exist], under the default configuration, is not
    excluded and the limiter would grant its path, yet the handler registers
    no callback at all, the limiter is not consulted, and when the response
    finishes with status 404 nothing has been counted. *)
Theorem C1_unmatched_request_is_not_counted :
  ∃ cl σ1 σ2,
    preMiddleware (server_with router_without_routes) UArgUndefined state0
    = (Normal cl, σ1)
    ∧ shouldMeasure "/does-not-exist" (cl_config cl) σ1 = (Normal true, σ1)
    ∧ fst (registerPath (cl_pathLimiter cl) "/does-not-exist") = true
    ∧ handler cl (get "/does-not-exist") σ1 = (Normal tt, cl, σ2)
    ∧ registered (trace σ2) = []
    ∧ finish (registered (trace σ2)) (Some {| statusCode := Some 404 |}) nothing_recorded
      = (Normal tt, nothing_recorded).
Proof.
  do 3 eexists.
  split; [reflexivity|]. split; [reflexivity|]. split; [vm_compute; reflexivity|].
  split; [reflexivity|]. split; reflexivity.
Qed.

(** ** The resolved path *)

Lemma string_app_assoc (a b c : string) : (a ++ b) ++ c = a ++ (b ++ c).
Proof.
  induction a as [|ch a IH]; [reflexivity|].
  change (String ch ((a ++ b) ++ c) = String ch (a ++ (b ++ c))).
  by rewrite IH.
Qed.

(** The label of a route template, as the code renders it. *)
Lemma resolvePath_found {W : Type} (req : Request) (spec : @RouteSpec W) :
  resolvePath req (RouteFound spec) =
    match js_or (spec_path spec) (spec_url spec) with
    | Some (PathRegExp r) => Normal ("RegExp(/" ++ source r ++ "/" ++ flags r ++ ")")
    | Some (PathString s) => Normal s
    | None => Throw (TypeError "Cannot read property 'toString' of undefined")
    end.
Proof.
  unfold resolvePath, RegExp_toString.
  destruct (js_or (spec_path spec) (spec_url spec)) as [[s|r]|]; try reflexivity.
  f_equal. rewrite !string_app_assoc. reflexivity.
Qed.

(** C5, as stated, fails for a pattern route: the text between the
    parentheses is the pattern converted to a string, slashes included, not
    its source. *)
Lemma C5_pattern_label_is_not_the_source :
  source pattern_foo = "^foo$"
  ∧ resolvePath (get "/foo") (router_with_pattern (get "/foo")) = Normal "RegExp(/^foo$/)"
  ∧ resolvePath (get "/foo") (router_with_pattern (get "/foo"))
    ≠ Normal ("RegExp(" ++ source pattern_foo ++ ")").
Proof. split; [reflexivity|]. split; [reflexivity|discriminate]. Qed.

(** C5, amended. One resolved path is computed per request.  When the router
    found no route it is the request's path, verbatim.  When it found one,
    the template is the route's [path], or its [url] when [path] is missing
    or empty; a string template is the resolved path, and a pattern is
    rendered as [RegExp(] followed by the pattern converted to a string (a
    slash, its source, a slash, its flags) and [)].  The resolved path of a
    found route does not depend on the request. *)
Theorem C5_resolved_path {W : Type} (req : Request) (found : @FindResult W) :
  match found with
  | RouteFindError _ => resolvePath req found = Normal (req_path req)
  | RouteFound spec =>
      (∀ s, spec_path spec = Some (PathString s) → s ≠ "" →
            resolvePath req found = Normal s)
      ∧ (∀ r, spec_path spec = Some (PathRegExp r) →
              resolvePath req found
              = Normal ("RegExp(/" ++ source r ++ "/" ++ flags r ++ ")"))
      ∧ (spec_path spec = None ∨ spec_path spec = Some (PathString "") →
         (∀ s, spec_url spec = Some (PathString s) → resolvePath req found = Normal s)
         ∧ (∀ r, spec_url spec = Some (PathRegExp r) →
                 resolvePath req found
                 = Normal ("RegExp(/" ++ source r ++ "/" ++ flags r ++ ")")))
      ∧ (∀ req', resolvePath req' found = resolvePath req found)
  end.
Proof.
  destruct found as [message|spec]; [reflexivity|].
  rewrite resolvePath_found. unfold js_or.
  split; [|split; [|split]].
  - intros s -> Hs. simpl. rewrite bool_decide_false by assumption. reflexivity.
  - intros r ->. reflexivity.
  - intros [-> | ->]; simpl; split; intros ? ->; reflexivity.
  - intros req'. rewrite resolvePath_found. reflexivity.
Qed.

Lemma C5_resolved_path_witness :
  resolvePath (get "/orders/7") (router_with_template (get "/orders/7")) = Normal "/orders/:id"
  ∧ resolvePath (get "/orders/9") (router_with_template (get "/orders/9")) = Normal "/orders/:id".
Proof.
  split.
  - destruct (C5_resolved_path (get "/orders/7") (router_with_template (get "/orders/7")))
      as (Hstring & _).
    apply (Hstring "/orders/:id"); [reflexivity|discriminate].
  - destruct (C5_resolved_path (get "/orders/9") (router_with_template (get "/orders/9")))
      as (Hstring & _).
    apply (Hstring "/orders/:id"); [reflexivity|discriminate].
Defined.

(** ** The response-finish callbacks *)

(** C7. When a response finishes, the [status_code] label a callback records
    is the status code of the response when there is a response and it has
    one, and 0 otherwise; the callback returns in either case, having added
    one observation, for the path and method it closed over, to its own
    instrument and nothing to the other. *)
Theorem C7_status_code_label_or_zero
    (cb : FinishCallback) (res2 : option Response) (m : Recorded) :
  let code :=
    match res2 with
    | Some {| statusCode := Some c |} => c
    | Some {| statusCode := None |} => 0
    | None => 0
    end in
  status_code_label res2 = Normal code
  ∧ runFinishCallback cb res2 m =
      (Normal tt,
       match cb with
       | EndTimer path method =>
           {| histogram_observations :=
                histogram_observations m
                ++ [{| l_path := path; l_method := method; l_status_code := code |}];
              counter_increments := counter_increments m |}
       | IncCounter path method =>
           {| histogram_observations := histogram_observations m;
              counter_increments :=
                counter_increments m
                ++ [{| l_path := path; l_method := method; l_status_code := code |}] |}
       end).
Proof.
  intros code.
  assert (Hlabel : status_code_label res2 = Normal code).
  { subst code. unfold status_code_label.
    destruct res2 as [[[c|]]|]; simpl.
    - case_bool_decide as Hc; simpl; [by subst|reflexivity].
    - reflexivity.
    - reflexivity. }
  split; [assumption|].
  unfold runFinishCallback. rewrite Hlabel. destruct cb; reflexivity.
Qed.

(** ** The configuration check *)

Section CheckConfig.
Context {W : Type}.
Implicit Types (v : @JsValue W) (o : @UserConfig W).

Lemma route_check v :
  negb (is_false v) && (negb (typeofString v) || negb (truthy v)) = true ↔ bad_route v.
Proof.
  unfold bad_route.
  destruct v as [| |[]| |s| | | |]; simpl; try (split; [intros _; split; [discriminate|intros ?; discriminate]|reflexivity]).
  - split; [discriminate|]. intros [Hne _]. by destruct Hne.
  - case_bool_decide as Hs; simpl.
    + split; [|reflexivity]. intros _. split; [discriminate|]. by intros ? [= <-].
    + split; [discriminate|]. intros [_ Hempty]. destruct Hs. by apply Hempty.
Qed.

Lemma exclude_check v :
  truthy v && (negb (isArray v) && negb (instanceofRegExp v) && negb (typeofFunction v)) = true
  ↔ bad_exclude v.
Proof.
  unfold bad_exclude.
  destruct v as [| |b|n|s|items|r|f|]; simpl;
    rewrite ?andb_true_r;
    try (split; [intros ->; repeat split; discriminate
                |intros (Ht & _); exact Ht]).
  - split; [discriminate|]. intros (_ & H & _). by destruct (H items).
  - split; [discriminate|]. intros (_ & _ & H & _). by destruct (H r).
  - split; [discriminate|]. intros (_ & _ & _ & H). by destruct (H f).
  - split; [intros _; repeat split; discriminate|reflexivity].
Qed.

Lemma promBlacklist_check v :
  negb (isArray v) = true ↔ bad_promBlacklist v.
Proof.
  unfold bad_promBlacklist.
  destruct v as [| | | | |items| | |]; simpl;
    try (split; [intros _ ?; discriminate|reflexivity]).
  split; [discriminate|]. intros H. by destruct (H items).
Qed.

Lemma promDefaultDelay_check v :
  bad_promDefaultDelay v →
  negb (typeofNumber v) || lessThan1000 v = true.
Proof.
  unfold bad_promDefaultDelay.
  destruct v as [| | |n| | | | |]; simpl; try reflexivity.
  intros [H | [(z & [= ->] & Hz) | [= ->]]].
  - by destruct (H n).
  - simpl. by apply bool_decide_eq_true.
  - reflexivity.
Qed.

Lemma normalizeExclude_exclude (config : @Config W) :
  exclude (normalizeExclude config) =
    match exclude config with
    | VString s => VArray [s]
    | other => other
    end.
Proof. unfold normalizeExclude. by destruct (exclude config) eqn:He. Qed.

Lemma checkConfig_object o :
  checkConfig (UArgObject o) =
    let merged := assign defaultConfig o in
    let config := normalizeExclude merged in
    if negb (is_false (route merged))
       && (negb (typeofString (route merged)) || negb (truthy (route merged)))
    then Throw (TypeError "`route` option for restify-prom-bundle.middleware() must be a non empty string or false")
    else if truthy (exclude config)
            && (negb (isArray (exclude config))
                && negb (instanceofRegExp (exclude config))
                && negb (typeofFunction (exclude config)))
    then Throw (TypeError "`exclude` option for restify-prom-bundle.middleware() must be string | string[] | RegExp | Function")
    else if negb (isArray (promBlacklist merged))
    then Throw (TypeError "`promBlacklist` option for restify-prom-bundle.middleware() must be an array")
    else if negb (typeofNumber (promDefaultDelay merged))
            || lessThan1000 (promDefaultDelay merged)
    then Throw (TypeError "`promDefaultDelay` option for restify-prom-bundle.middleware() must be number >= 1000")
    else Normal config.
Proof.
  unfold checkConfig. cbv zeta.
  assert (Hb : promBlacklist (normalizeExclude (assign defaultConfig o))
               = promBlacklist (assign defaultConfig o)).
  { unfold normalizeExclude. by destruct (exclude _). }
  assert (Hd : promDefaultDelay (normalizeExclude (assign defaultConfig o))
               = promDefaultDelay (assign defaultConfig o)).
  { unfold normalizeExclude. by destruct (exclude _). }
  by rewrite Hb, Hd.
Qed.

Lemma preMiddleware_rejects (server : @ServerArg W) (userConfig : @UserConfigArg W)
    (σ : @State W) (msg : string) :
  checkConfig userConfig = Throw (TypeError msg) →
  ∃ msg', fst (preMiddleware server userConfig σ) = Throw (TypeError msg').
Proof.
  intros Hc. unfold preMiddleware.
  destruct server as [| |[router|] []]; simpl; eauto.
  rewrite Hc. simpl. eauto.
Qed.

End CheckConfig.

(** Two values the guards let through: a [promDefaultDelay] that is NaN (it
    is of type number, and [NaN < 1000] is false), and an [exclude] that is
    present but falsy. *)
Example checkConfig_accepts_NaN_delay :
  is_normal (checkConfig (@UArgObject nat
               {| u_route := None; u_exclude := None; u_promBlacklist := None;
                  u_promDefaultDelay := Some (VNumber NaN);
                  u_maxPathsToCount := None |})) = true.
Proof. reflexivity. Qed.

Example checkConfig_accepts_falsy_exclude :
  is_normal (checkConfig (options_excluding VNull)) = true
  ∧ is_normal (checkConfig (options_excluding (VNumber (Num 0)))) = true.
Proof. split; reflexivity. Qed.

(** C8, as stated, fails in its last part: a configuration that passes the
    check (a predicate is a valid [exclude]) makes the handler throw while a
    request is processed. *)
Lemma C8_accepted_configuration_throws_at_request_time :
  ∃ cl σ1 σ2,
    preMiddleware (server_with router_without_routes)
                  (options_excluding (VFunction throwing_predicate)) state0
    = (Normal cl, σ1)
    ∧ handler cl (get "/x") σ1 = (Throw (Raised "predicate failed"), cl, σ2).
Proof. do 3 eexists. split; reflexivity. Qed.

(** C8, amended. With the options of the caller laid over the defaults:
    the check, and with it the construction, whatever the server and before
    any handler exists, throws a TypeError when [route] is neither a
    non-empty string nor [false]; when [exclude], a string having been made
    a one-element array, is truthy and neither an array, a pattern nor a
    function; when [promBlacklist] is not an array; when [promDefaultDelay]
    is not of type number or is below 1000.  Options that are in order
    ([exclude] absent, a string, an array, a pattern or a function;
    [promDefaultDelay] an integer of at least 1000) are accepted, with
    [exclude] normalized, and a server with a router and [pre] gets its
    handler, provided neither of the two metric names is already in the
    registry of prom-client.  The handler runs no check of the
    configuration: it returns,
    having called [next], whenever the router's answer yields a resolved
    path, the cache answers [hasOwnProperty], and the predicate, if
    [exclude] is one, returns when applied to the path. *)
Theorem C8_configuration_checked_at_construction {W : Type} (o : @UserConfig W) :
  let merged := assign defaultConfig o in
  (bad_route (route merged)
   ∨ bad_exclude (exclude (normalizeExclude merged))
   ∨ bad_promBlacklist (promBlacklist merged)
   ∨ bad_promDefaultDelay (promDefaultDelay merged) →
   (∃ msg, checkConfig (UArgObject o) = Throw (TypeError msg))
   ∧ (∀ (server : @ServerArg W) (σ : @State W),
        ∃ msg, fst (preMiddleware server (UArgObject o) σ) = Throw (TypeError msg)))
  ∧ ((route merged = VBool false ∨ ∃ s, route merged = VString s ∧ s ≠ "") →
     (exclude merged = VUndefined
      ∨ (∃ s, exclude merged = VString s)
      ∨ (∃ items, exclude merged = VArray items)
      ∨ (∃ r, exclude merged = VRegExp r)
      ∨ (∃ f, exclude merged = VFunction f)) →
     (∃ items, promBlacklist merged = VArray items) →
     (∃ z, promDefaultDelay merged = VNumber (Num z) ∧ 1000 ≤ z) →
     checkConfig (UArgObject o) = Normal (normalizeExclude merged)
     ∧ (∀ s, exclude merged = VString s → exclude (normalizeExclude merged) = VArray [s])
     ∧ (∀ (router : @Router W) (σ : @State W),
          "http_request_duration_miliseconds" ∉ registry σ →
          "http_requests_total" ∉ registry σ →
          ∃ cl σ1,
            preMiddleware (SrvObject (Some router) true) (UArgObject o) σ = (Normal cl, σ1)
            ∧ cl_router cl = router
            ∧ cl_config cl = normalizeExclude merged))
  ∧ (∀ (server : @ServerArg W) (σ σ1 τ : @State W) (cl : @Closure W)
       (req : Request) (path : string),
       preMiddleware server (UArgObject o) σ = (Normal cl, σ1) →
       resolvePath req (cl_router cl req) = Normal path →
       cache_intact (shouldMeasureExcludedCache τ) →
       (∀ f, exclude (cl_config cl) = VFunction f →
             is_normal (fst (f (world τ) path)) = true) →
       ∃ τ1, handler cl req τ = (Normal tt, cl, τ1) ∧ last (trace τ1) = Some Next).
Proof.
  intros merged. split; [|split].
  - intros Hbad.
    assert (Hthrow : ∃ msg, checkConfig (UArgObject o) = Throw (TypeError msg)).
    { rewrite checkConfig_object. cbv zeta. fold merged.
      destruct (negb (is_false (route merged)) && _) eqn:Hroute; [eauto|].
      destruct (truthy (exclude (normalizeExclude merged)) && _) eqn:Hexclude; [eauto|].
      destruct (negb (isArray (promBlacklist merged))) eqn:Hlist; [eauto|].
      destruct (negb (typeofNumber (promDefaultDelay merged)) || _) eqn:Hdelay; [eauto|].
      exfalso. destruct Hbad as [H | [H | [H | H]]].
      - apply route_check in H. congruence.
      - apply exclude_check in H. congruence.
      - apply promBlacklist_check in H. congruence.
      - apply promDefaultDelay_check in H. congruence. }
    split; [assumption|]. intros server σ.
    destruct Hthrow as [msg Hmsg]. by eapply preMiddleware_rejects.
  - intros Hroute Hexclude (items & Hlist) (z & Hdelay & Hz).
    assert (Hcheck : checkConfig (UArgObject o) = Normal (normalizeExclude merged)).
    { rewrite checkConfig_object. cbv zeta. fold merged.
      assert (negb (is_false (route merged))
              && (negb (typeofString (route merged)) || negb (truthy (route merged)))
              = false) as ->.
      { destruct Hroute as [-> | (s & -> & Hs)]; cbn; [reflexivity|].
        by rewrite bool_decide_false. }
      assert (truthy (exclude (normalizeExclude merged))
              && (negb (isArray (exclude (normalizeExclude merged)))
                  && negb (instanceofRegExp (exclude (normalizeExclude merged)))
                  && negb (typeofFunction (exclude (normalizeExclude merged))))
              = false) as ->.
      { rewrite normalizeExclude_exclude.
        destruct Hexclude as [-> | [(s & ->) | [(l & ->) | [(r & ->) | (f & ->)]]]];
          reflexivity. }
      rewrite Hlist, Hdelay. cbn [isArray negb typeofNumber lessThan1000 lt1000 orb].
      by rewrite bool_decide_false by lia. }
    split; [assumption|]. split.
    + intros s Hs. rewrite normalizeExclude_exclude. by rewrite Hs.
    + intros router σ Hhistogram Hcounter. unfold preMiddleware. rewrite Hcheck.
      cbv zeta. rewrite callInitMetrics_free
        by (destruct (truthy (route (normalizeExclude merged))); assumption).
      eexists _, _. split; [reflexivity|]. split; reflexivity.
  - intros server σ σ1 τ cl req path Hnew Hpath Hintact Hpred.
    destruct (preMiddleware_metrics _ _ _ _ _ Hnew) as (Hm & _).
    by eapply handler_returns.
Qed.

Lemma C8_configuration_witness :
  ∃ msg,
    checkConfig (@UArgObject nat
                   {| u_route := Some (VString ""); u_exclude := None;
                      u_promBlacklist := None; u_promDefaultDelay := None;
                      u_maxPathsToCount := None |})
    = Throw (TypeError msg).
Proof.
  destruct (C8_configuration_checked_at_construction
              (W := nat)
              {| u_route := Some (VString ""); u_exclude := None;
                 u_promBlacklist := None; u_promDefaultDelay := None;
                 u_maxPathsToCount := None |}) as (Hrejected & _).
  apply Hrejected. left. split; [discriminate|]. by intros s [= <-].
Defined.

(** * Further properties of the code *)

(** ** shouldMeasure and its cache *)

Section CacheProperties.
Context {W : Type}.
Implicit Types (config : @Config W) (σ : @State W) (p q : string).

Lemma shouldMeasure_cache_cases q config σ :
  shouldMeasureExcludedCache (snd (shouldMeasure q config σ)) = shouldMeasureExcludedCache σ
  ∨ (shouldMeasureExcludedCache σ !! q = None
     ∧ q ≠ "__proto__"
     ∧ ∃ e, shouldMeasureExcludedCache (snd (shouldMeasure q config σ))
            = <[q := e]> (shouldMeasureExcludedCache σ)
            ∧ fst (evalExclude (exclude config) q (world σ)) = Normal e).
Proof.
  unfold shouldMeasure.
  destruct (truthy (exclude config)); [|by left].
  unfold js_hasOwnProperty.
  destruct (shouldMeasureExcludedCache σ !! "hasOwnProperty"); [by left|].
  case_bool_decide as Hq; [by left|].
  destruct (evalExclude (exclude config) q (world σ)) as [[e|err] w1]; [|by left].
  simpl. unfold js_set. case_decide as Hproto; [by left|].
  right. split.
  - destruct (shouldMeasureExcludedCache σ !! q) eqn:He; [|reflexivity].
    destruct Hq. eauto.
  - split; [assumption|]. by exists e.
Qed.

End CacheProperties.

(** X1. The entries of the cache are paths that were asked for: after any
    calls of [shouldMeasure] the keys are among the keys there were and the
    paths of the calls, no entry there was has gone or changed, and the
    cache has grown by at most one entry per call. *)
Theorem shouldMeasureCalls_cache_growth {W : Type}
    (calls : list (string * @Config W)) (σ : @State W) :
  dom (shouldMeasureExcludedCache (shouldMeasureCalls calls σ))
    ⊆ dom (shouldMeasureExcludedCache σ) ∪ list_to_set (calls.*1)
  ∧ shouldMeasureExcludedCache σ ⊆ shouldMeasureExcludedCache (shouldMeasureCalls calls σ)
  ∧ (size (shouldMeasureExcludedCache (shouldMeasureCalls calls σ))
     ≤ size (shouldMeasureExcludedCache σ) + List.length calls)%nat.
Proof.
  revert σ. induction calls as [|[q config] rest IH]; intros σ; simpl.
  - split; [set_solver|]. split; [reflexivity|lia].
  - destruct (IH (snd (shouldMeasure q config σ))) as (IHdom & IHsub & IHsize).
    destruct (shouldMeasure_cache_cases q config σ)
      as [Hsame | (Hmiss & _ & e & Hins & _)].
    + rewrite Hsame in IHdom, IHsub, IHsize.
      split; [|split; [assumption|lia]].
      intros x Hx. apply IHdom in Hx.
      rewrite elem_of_union in Hx. rewrite !elem_of_union. tauto.
    + rewrite Hins in IHdom, IHsub, IHsize.
      split; [|split].
      * rewrite dom_insert_L in IHdom.
        intros x Hx. apply IHdom in Hx.
        rewrite !elem_of_union in Hx. rewrite !elem_of_union. tauto.
      * etrans; [|exact IHsub]. by apply insert_subseteq.
      * rewrite map_size_insert_None in IHsize by assumption. lia.
Qed.

(** X2. With a literal list as the exclusion setting the answer is right in
    every state, not only on a first encounter: starting from a cache whose
    entries agree with the list (the empty cache of a new instance does),
    after any number of calls with that configuration the entries still
    agree with the list, the user state is untouched, and a call for any
    path answers whether the path is outside the list. *)
Theorem shouldMeasure_list_exact {W : Type}
    (items : list string) (config : @Config W) (paths : list string)
    (σ : @State W) (p : string) :
  exclude config = VArray items →
  cache_agrees_with_list items (shouldMeasureExcludedCache σ) →
  let σ' := shouldMeasureCalls (map (λ q, (q, config)) paths) σ in
  cache_agrees_with_list items (shouldMeasureExcludedCache σ')
  ∧ world σ' = world σ
  ∧ (cache_intact (shouldMeasureExcludedCache σ') →
     fst (shouldMeasure p config σ') = Normal (negb (bool_decide (p ∈ items)))).
Proof.
  intros Hex Hagree σ'.
  assert (Hinv : cache_agrees_with_list items (shouldMeasureExcludedCache σ')
                 ∧ world σ' = world σ).
  { subst σ'. revert σ Hagree.
    induction paths as [|q rest IH]; intros σ Hagree; simpl; [by split|].
    destruct (IH (snd (shouldMeasure q config σ))) as (IH1 & IH2).
    - destruct (shouldMeasure_cache_cases q config σ)
        as [-> | (_ & _ & e & -> & He)]; [assumption|].
      rewrite Hex in He. simpl in He. injection He as <-.
      intros p' e' Hp'. destruct (decide (q = p')) as [<-|Hne].
      + rewrite lookup_insert_eq in Hp'. by injection Hp' as <-.
      + rewrite lookup_insert_ne in Hp' by assumption. by apply Hagree.
    - split; [assumption|]. rewrite IH2.
      unfold shouldMeasure. rewrite Hex. simpl.
      destruct (js_hasOwnProperty _ _) as [[]|]; reflexivity. }
  destruct Hinv as (Hagree' & Hworld).
  split; [assumption|]. split; [assumption|].
  intros Hintact.
  assert (Ht : truthy (exclude config) = true) by (by rewrite Hex).
  destruct (shouldMeasureExcludedCache σ' !! p) as [e|] eqn:Hp.
  - rewrite (shouldMeasure_hit p config σ' e) by assumption.
    simpl. by rewrite (Hagree' p e Hp).
  - rewrite shouldMeasure_miss by assumption. rewrite Hex. reflexivity.
Qed.

Lemma shouldMeasure_list_exact_witness :
  fst (shouldMeasure "/health" (config_excluding (VArray ["/health"]))
         (shouldMeasureCalls
            (map (λ q, (q, config_excluding (VArray ["/health"])))
                 ["/a"; "/health"; "/a"]) state0))
  = Normal false.
Proof.
  apply (shouldMeasure_list_exact ["/health"] (config_excluding (VArray ["/health"]))
           ["/a"; "/health"; "/a"] state0 "/health").
  - reflexivity.
  - intros p e Hp. vm_compute in Hp. discriminate.
  - vm_compute. reflexivity.
Defined.

(** X3. Once a call for the path [hasOwnProperty] has answered under an
    exclusion setting, every later call made under an exclusion setting, for
    any path and any instance, throws a TypeError and changes nothing; this
    lasts through any further calls, until the next construction. *)
Theorem shouldMeasure_hasOwnProperty_path_poisons_cache {W : Type}
    (config : @Config W) (σ σ1 : @State W) (b : bool)
    (calls : list (string * @Config W)) (p : string) (config' : @Config W) :
  truthy (exclude config) = true →
  shouldMeasure "hasOwnProperty" config σ = (Normal b, σ1) →
  truthy (exclude config') = true →
  ∃ msg, shouldMeasure p config' (shouldMeasureCalls calls σ1)
         = (Throw (TypeError msg), shouldMeasureCalls calls σ1).
Proof.
  intros Ht Hcall Ht'.
  assert (Hne : "hasOwnProperty" ≠ "__proto__") by discriminate.
  pose proof (shouldMeasure_records _ config σ b σ1 Ht Hne Hcall) as Hrec.
  pose proof (shouldMeasureCalls_keeps_entries calls σ1 _ _ Hrec) as Hkept.
  apply shouldMeasure_shadowed; [assumption|].
  unfold cache_intact. by rewrite Hkept.
Qed.

Lemma shouldMeasure_hasOwnProperty_path_witness :
  ∃ msg,
    shouldMeasure "/health" (config_excluding (VArray ["/health"]))
      (shouldMeasureCalls []
         (snd (shouldMeasure "hasOwnProperty" (config_excluding (VArray ["/health"])) state0)))
    = (Throw (TypeError msg),
       shouldMeasureCalls []
         (snd (shouldMeasure "hasOwnProperty" (config_excluding (VArray ["/health"])) state0))).
Proof.
  apply (shouldMeasure_hasOwnProperty_path_poisons_cache
           (config_excluding (VArray ["/health"])) state0 _ true).
  - reflexivity.
  - reflexivity.
  - reflexivity.
Defined.

(** X4. The path [__proto__] never gets an entry: a call for it leaves the
    cache exactly as it was, so as long as there is no entry for it every
    call for it under an exclusion setting evaluates the rules again. *)
Theorem shouldMeasure_proto_path_never_cached {W : Type}
    (config : @Config W) (σ : @State W) :
  let σ1 := snd (shouldMeasure "__proto__" config σ) in
  shouldMeasureExcludedCache σ1 = shouldMeasureExcludedCache σ
  ∧ (truthy (exclude config) = true →
     cache_intact (shouldMeasureExcludedCache σ) →
     shouldMeasureExcludedCache σ !! "__proto__" = None →
     fst (shouldMeasure "__proto__" config σ)
     = completion_map negb (fst (evalExclude (exclude config) "__proto__" (world σ)))
     ∧ fst (shouldMeasure "__proto__" config σ1)
       = completion_map negb (fst (evalExclude (exclude config) "__proto__" (world σ1)))).
Proof.
  intros σ1.
  assert (Hsame : shouldMeasureExcludedCache σ1 = shouldMeasureExcludedCache σ).
  { destruct (shouldMeasure_cache_cases "__proto__" config σ)
      as [H | (_ & Hne & _)]; [exact H|by destruct Hne]. }
  split; [assumption|].
  intros Ht Hintact Hmiss. split.
  - rewrite shouldMeasure_miss by assumption.
    destruct (evalExclude _ _ _) as [[]]; reflexivity.
  - rewrite shouldMeasure_miss; [| assumption | by rewrite Hsame | by rewrite Hsame].
    destruct (evalExclude _ _ _) as [[]]; reflexivity.
Qed.

Lemma shouldMeasure_proto_path_witness :
  fst (shouldMeasure "__proto__" (config_excluding (VFunction alternating_predicate))
         (snd (shouldMeasure "__proto__"
                 (config_excluding (VFunction alternating_predicate)) state0)))
  = Normal true.
Proof.
  destruct (shouldMeasure_proto_path_never_cached
              (config_excluding (VFunction alternating_predicate)) state0)
    as (_ & Hagain).
  destruct Hagain as (_ & Hsecond); [reflexivity | reflexivity | reflexivity |].
  exact Hsecond.
Defined.

(** ** checkConfig *)

Section CheckConfigProperties.
Context {W : Type}.
Implicit Types (v : @JsValue W) (config : @Config W) (arg : @UserConfigArg W).

Lemma checkConfig_options_of arg :
  arg ≠ UArgNotObject → checkConfig arg = checkConfig (UArgObject (options_of arg)).
Proof. by destruct arg. Qed.

Lemma route_passes v :
  negb (is_false v) && (negb (typeofString v) || negb (truthy v)) = false →
  v = VBool false ∨ ∃ s, v = VString s ∧ s ≠ "".
Proof.
  destruct v as [| |[]| |s| | | |]; simpl; try discriminate; [by left|].
  case_bool_decide; [discriminate|]. right. eauto.
Qed.

Lemma exclude_passes v :
  truthy v && (negb (isArray v) && negb (instanceofRegExp v) && negb (typeofFunction v))
  = false →
  truthy v = false
  ∨ (∃ items, v = VArray items) ∨ (∃ r, v = VRegExp r) ∨ (∃ f, v = VFunction f).
Proof.
  destruct v as [| |b|n|s|items|r|f|]; simpl; rewrite ?andb_true_r; eauto 6.
Qed.

Lemma promBlacklist_passes v :
  negb (isArray v) = false → ∃ items, v = VArray items.
Proof. destruct v; simpl; try discriminate. eauto. Qed.

Lemma promDefaultDelay_passes v :
  negb (typeofNumber v) || lessThan1000 v = false →
  ∃ n, v = VNumber n ∧ lt1000 n = false.
Proof. destruct v; simpl; try discriminate. eauto. Qed.

Lemma normalizeExclude_fields config :
  route (normalizeExclude config) = route config
  ∧ promBlacklist (normalizeExclude config) = promBlacklist config
  ∧ promDefaultDelay (normalizeExclude config) = promDefaultDelay config
  ∧ maxPathsToCount (normalizeExclude config) = maxPathsToCount config.
Proof. unfold normalizeExclude. by destruct (exclude config). Qed.

Lemma normalizeExclude_not_string config :
  (∀ s, exclude config ≠ VString s) → normalizeExclude config = config.
Proof.
  intros Hs. unfold normalizeExclude.
  destruct (exclude config) eqn:He; try reflexivity. by destruct (Hs s).
Qed.

(** What holds of every configuration the check lets through. *)
Lemma checkConfig_accepted arg config :
  checkConfig arg = Normal config →
  arg ≠ UArgNotObject
  ∧ config = normalizeExclude (assign defaultConfig (options_of arg))
  ∧ (route config = VBool false ∨ ∃ s, route config = VString s ∧ s ≠ "")
  ∧ (truthy (exclude config) = false
     ∨ (∃ items, exclude config = VArray items)
     ∨ (∃ r, exclude config = VRegExp r)
     ∨ (∃ f, exclude config = VFunction f))
  ∧ (∀ s, exclude config ≠ VString s)
  ∧ (∃ items, promBlacklist config = VArray items)
  ∧ (∃ n, promDefaultDelay config = VNumber n ∧ lt1000 n = false).
Proof.
  intros Hcheck.
  assert (Harg : arg ≠ UArgNotObject) by (intros ->; discriminate).
  split; [assumption|].
  rewrite checkConfig_options_of in Hcheck by assumption.
  rewrite checkConfig_object in Hcheck. cbv zeta in Hcheck.
  set (merged := assign defaultConfig (options_of arg)) in *.
  destruct (negb (is_false (route merged)) && _) eqn:Hroute; [discriminate|].
  destruct (truthy (exclude (normalizeExclude merged)) && _) eqn:Hexclude; [discriminate|].
  destruct (negb (isArray (promBlacklist merged))) eqn:Hlist; [discriminate|].
  destruct (negb (typeofNumber (promDefaultDelay merged)) || _) eqn:Hdelay; [discriminate|].
  injection Hcheck as <-.
  destruct (normalizeExclude_fields merged) as (-> & -> & -> & _).
  split; [reflexivity|].
  split; [by apply route_passes|].
  split; [by apply exclude_passes|].
  split; [|split; [by apply promBlacklist_passes|by apply promDefaultDelay_passes]].
  intros s. rewrite normalizeExclude_exclude. by destruct (exclude merged).
Qed.

(** The check returns a configuration or throws a TypeError, nothing else. *)
Lemma checkConfig_accepted_or_TypeError arg :
  (∃ config, checkConfig arg = Normal config)
  ∨ (∃ msg, checkConfig arg = Throw (TypeError msg)).
Proof.
  destruct arg as [| | |o]; try (right; eexists; reflexivity).
  - left. eexists. reflexivity.
  - left. eexists. reflexivity.
  - rewrite checkConfig_object. cbv zeta.
    repeat match goal with
           | |- context [if ?b then Throw _ else _] => destruct b; [right; eauto|]
           end.
    left. eauto.
Qed.

End CheckConfigProperties.

(** X5. Every configuration the check lets through is the options of the
    caller laid over the defaults (null and undefined counting as no options
    at all), with a string [exclude] made a one-element array, and is in
    order: [route] is [false] or a non-empty string; [exclude] is never a
    string, and is falsy, an array, a pattern or a function;
    [promBlacklist] is an array; [promDefaultDelay] is of type number and
    does not compare below 1000. *)
Theorem checkConfig_accepted_is_in_order {W : Type}
    (arg : @UserConfigArg W) (config : @Config W) :
  checkConfig arg = Normal config →
  arg ≠ UArgNotObject
  ∧ config = normalizeExclude (assign defaultConfig (options_of arg))
  ∧ (route config = VBool false ∨ ∃ s, route config = VString s ∧ s ≠ "")
  ∧ (truthy (exclude config) = false
     ∨ (∃ items, exclude config = VArray items)
     ∨ (∃ r, exclude config = VRegExp r)
     ∨ (∃ f, exclude config = VFunction f))
  ∧ (∀ s, exclude config ≠ VString s)
  ∧ (∃ items, promBlacklist config = VArray items)
  ∧ (∃ n, promDefaultDelay config = VNumber n ∧ lt1000 n = false).
Proof. apply checkConfig_accepted. Qed.

Lemma checkConfig_accepted_witness :
  config_excluding (VArray ["/health"])
  = normalizeExclude (assign defaultConfig (options_of (options_excluding (VString "/health"))))
  ∧ ∃ items, promBlacklist (config_excluding (VArray ["/health"])) = VArray items.
Proof.
  destruct (checkConfig_accepted_is_in_order
              (options_excluding (VString "/health"))
              (config_excluding (VArray ["/health"])))
    as (_ & Hmerged & _ & _ & _ & Hlist & _).
  - reflexivity.
  - split; assumption.
Defined.

(** X6. A configuration the check has returned passes the check again,
    unchanged, when it is given back as the options: nothing is normalized
    twice and no default replaces an option. *)
Theorem checkConfig_idempotent {W : Type}
    (arg : @UserConfigArg W) (config : @Config W) :
  checkConfig arg = Normal config →
  checkConfig (UArgObject (options_of_config config)) = Normal config.
Proof.
  intros Hcheck.
  destruct (checkConfig_accepted arg config Hcheck)
    as (_ & _ & Hroute & Hexclude & Hnostring & (items & Hlist) & (n & Hdelay & Hn)).
  rewrite checkConfig_object. cbv zeta.
  assert (Hassign : assign defaultConfig (options_of_config config) = config)
    by (by destruct config).
  rewrite Hassign.
  rewrite (normalizeExclude_not_string config Hnostring).
  assert (negb (is_false (route config))
          && (negb (typeofString (route config)) || negb (truthy (route config)))
          = false) as ->.
  { destruct Hroute as [-> | (s & -> & Hs)]; cbn; [reflexivity|].
    by rewrite bool_decide_false. }
  assert (truthy (exclude config)
          && (negb (isArray (exclude config))
              && negb (instanceofRegExp (exclude config))
              && negb (typeofFunction (exclude config)))
          = false) as ->.
  { destruct Hexclude as [-> | [(l & ->) | [(r & ->) | (f & ->)]]]; reflexivity. }
  rewrite Hlist, Hdelay. cbn [isArray negb typeofNumber lessThan1000 orb].
  by rewrite Hn.
Qed.

Lemma checkConfig_idempotent_witness :
  checkConfig (UArgObject (options_of_config (config_excluding (VArray ["/health"]))))
  = Normal (config_excluding (VArray ["/health"])).
Proof.
  apply (checkConfig_idempotent (options_excluding (VString "/health"))).
  reflexivity.
Defined.

(** X7. The checks are made in a fixed order and the first that fails gives
    the message: an argument that is neither an object nor undefined, then
    [route], then [exclude], then [promBlacklist], then [promDefaultDelay].
    A bad [route] is reported whatever the other options are, a bad
    [exclude] only when [route] is in order, and so on. *)
Theorem checkConfig_reports_first_failure {W : Type} (o : @UserConfig W) :
  let merged := assign defaultConfig o in
  checkConfig (@UArgNotObject W)
  = Throw (TypeError "Invalid second argument for restify-prom-bundle.middleware()")
  ∧ (bad_route (route merged) →
     checkConfig (UArgObject o)
     = Throw (TypeError "`route` option for restify-prom-bundle.middleware() must be a non empty string or false"))
  ∧ (¬ bad_route (route merged) →
     bad_exclude (exclude (normalizeExclude merged)) →
     checkConfig (UArgObject o)
     = Throw (TypeError "`exclude` option for restify-prom-bundle.middleware() must be string | string[] | RegExp | Function"))
  ∧ (¬ bad_route (route merged) →
     ¬ bad_exclude (exclude (normalizeExclude merged)) →
     bad_promBlacklist (promBlacklist merged) →
     checkConfig (UArgObject o)
     = Throw (TypeError "`promBlacklist` option for restify-prom-bundle.middleware() must be an array"))
  ∧ (¬ bad_route (route merged) →
     ¬ bad_exclude (exclude (normalizeExclude merged)) →
     ¬ bad_promBlacklist (promBlacklist merged) →
     bad_promDefaultDelay (promDefaultDelay merged) →
     checkConfig (UArgObject o)
     = Throw (TypeError "`promDefaultDelay` option for restify-prom-bundle.middleware() must be number >= 1000")).
Proof.
  intros merged. split; [reflexivity|].
  assert (Hr : ∀ b : bool, (b = true ↔ bad_route (route merged)) →
               ¬ bad_route (route merged) → b = false).
  { intros [] Hb Hn; [|reflexivity]. destruct Hn. by apply Hb. }
  assert (He : ∀ b : bool, (b = true ↔ bad_exclude (exclude (normalizeExclude merged))) →
               ¬ bad_exclude (exclude (normalizeExclude merged)) → b = false).
  { intros [] Hb Hn; [|reflexivity]. destruct Hn. by apply Hb. }
  assert (Hl : ∀ b : bool, (b = true ↔ bad_promBlacklist (promBlacklist merged)) →
               ¬ bad_promBlacklist (promBlacklist merged) → b = false).
  { intros [] Hb Hn; [|reflexivity]. destruct Hn. by apply Hb. }
  rewrite checkConfig_object. cbv zeta. fold merged.
  split; [|split; [|split]].
  - intros H. apply route_check in H. by rewrite H.
  - intros Hroute H.
    rewrite (Hr _ (route_check _) Hroute).
    apply exclude_check in H. by rewrite H.
  - intros Hroute Hexclude H.
    rewrite (Hr _ (route_check _) Hroute), (He _ (exclude_check _) Hexclude).
    apply promBlacklist_check in H. by rewrite H.
  - intros Hroute Hexclude Hlist H.
    rewrite (Hr _ (route_check _) Hroute), (He _ (exclude_check _) Hexclude),
      (Hl _ (promBlacklist_check _) Hlist).
    apply promDefaultDelay_check in H. by rewrite H.
Qed.

Lemma checkConfig_reports_first_failure_witness :
  checkConfig (@UArgObject nat
                 {| u_route := Some (VNumber (Num 1)); u_exclude := Some VObject;
                    u_promBlacklist := Some VNull;
                    u_promDefaultDelay := Some (VNumber (Num 5));
                    u_maxPathsToCount := None |})
  = Throw (TypeError "`route` option for restify-prom-bundle.middleware() must be a non empty string or false").
Proof.
  destruct (checkConfig_reports_first_failure
              (W := nat)
              {| u_route := Some (VNumber (Num 1)); u_exclude := Some VObject;
                 u_promBlacklist := Some VNull;
                 u_promDefaultDelay := Some (VNumber (Num 5));
                 u_maxPathsToCount := None |}) as (_ & Hroute & _).
  apply Hroute. split; [discriminate|]. intros s. discriminate.
Defined.

(** ** preMiddleware *)

(** X8. The server is checked before the options, and the options before
    any collaborator is called: a construction refused for its server or for
    its options throws a TypeError and has called nothing (neither
    [client.defaultMetrics] nor [server.pre] has run, and the registry and
    the user state are as they were).  A construction whose server and
    options pass has called [client.defaultMetrics] and, unless [route] is
    [false], [server.pre]; only then are the instruments constructed: it
    returns when neither metric name is in the registry of prom-client, and
    otherwise throws prom-client's Error with those two calls already
    made. *)
Theorem preMiddleware_refusal_and_late_failure {W : Type}
    (server : @ServerArg W) (userConfig : @UserConfigArg W) (σ : @State W) :
  let r := preMiddleware server userConfig σ in
  match server with
  | SrvObject (Some router) true =>
      match checkConfig userConfig with
      | Throw e =>
          fst r = Throw e
          ∧ trace (snd r) = trace σ
          ∧ registry (snd r) = registry σ
          ∧ world (snd r) = world σ
      | Normal config =>
          emitted σ (snd r)
          = DefaultMetrics (promBlacklist config) (promDefaultDelay config)
            :: (if is_false (route config) then [] else [ServerPre (route config)])
          ∧ world (snd r) = world σ
          ∧ ("http_request_duration_miliseconds" ∈ registry σ
             ∨ "http_requests_total" ∈ registry σ →
             ∃ msg, fst r = Throw (Error msg))
          ∧ ("http_request_duration_miliseconds" ∉ registry σ →
             "http_requests_total" ∉ registry σ →
             is_normal (fst r) = true
             ∧ registry (snd r)
               = {["http_requests_total"]}
                 ∪ ({["http_request_duration_miliseconds"]} ∪ registry σ))
      end
  | SrvNull =>
      (∃ msg, fst r = Throw (TypeError msg))
      ∧ trace (snd r) = trace σ
      ∧ registry (snd r) = registry σ
      ∧ world (snd r) = world σ
  | _ =>
      fst r = Throw (TypeError "restify-prom-bundle.middleware() must take a restify server instance as first argument")
      ∧ trace (snd r) = trace σ
      ∧ registry (snd r) = registry σ
      ∧ world (snd r) = world σ
  end.
Proof.
  intros r. subst r. unfold preMiddleware.
  destruct server as [| |[router|] []]; simpl; eauto 6.
  destruct (checkConfig userConfig) as [config|e] eqn:Hcheck; simpl; [|auto].
  destruct (checkConfig_accepted _ _ Hcheck) as (_ & _ & Hroute & _).
  set (σ2 := if truthy (route config)
             then emit (ServerPre (route config))
                       (emit (DefaultMetrics (promBlacklist config) (promDefaultDelay config))
                             (set_cache ∅ σ))
             else emit (DefaultMetrics (promBlacklist config) (promDefaultDelay config))
                       (set_cache ∅ σ)).
  assert (Hσ2 : trace σ2
                = (trace σ ++ DefaultMetrics (promBlacklist config) (promDefaultDelay config)
                     :: (if is_false (route config) then []
                         else [ServerPre (route config)]))%list
                ∧ world σ2 = world σ ∧ registry σ2 = registry σ).
  { subst σ2. destruct Hroute as [-> | (s & -> & Hs)]; simpl.
    - auto.
    - rewrite bool_decide_false by assumption. simpl.
      by rewrite <- app_assoc. }
  destruct Hσ2 as (Ht2 & Hw2 & Hr2).
  destruct (callInitMetrics_frame config σ2) as (_ & Hw3 & Ht3).
  pose proof (callInitMetrics_taken config σ2) as Htaken.
  pose proof (callInitMetrics_free config σ2) as Hfree.
  rewrite Hr2 in Htaken, Hfree.
  destruct (callInitMetrics config σ2) as [[metrics|e] σ3]; simpl in *.
  - split; [apply emitted_app; by rewrite Ht3, Ht2|].
    split; [by rewrite Hw3, Hw2|]. split.
    + intros H. destruct (Htaken H) as (msg & Hmsg). discriminate.
    + intros Hhistogram Hcounter. split; [reflexivity|].
      by injection (Hfree Hhistogram Hcounter) as _ ->.
  - split; [apply emitted_app; by rewrite Ht3, Ht2|].
    split; [by rewrite Hw3, Hw2|]. split.
    + intros H. destruct (Htaken H) as (msg & [= ->]). by exists msg.
    + intros Hhistogram Hcounter. discriminate (Hfree Hhistogram Hcounter).
Qed.

Lemma preMiddleware_late_failure_witness :
  ∃ msg,
    fst (preMiddleware (server_with router_without_routes) UArgUndefined
           (snd (preMiddleware (server_with router_without_routes) UArgUndefined state0)))
    = Throw (Error msg).
Proof.
  destruct (preMiddleware_refusal_and_late_failure
              (server_with router_without_routes) UArgUndefined
              (snd (preMiddleware (server_with router_without_routes) UArgUndefined state0)))
    as (_ & _ & Hlate & _).
  apply Hlate. left. vm_compute. apply (bool_decide_unpack _). vm_compute. exact I.
Defined.

(** X9. A construction that succeeds was given a server with a router and
    [pre] and options that pass the check; the instance holds that router,
    the checked configuration, a limiter without any path whose capacity is
    [maxPathsToCount], and the two instruments.  It has called
    [client.defaultMetrics] once, with the blacklist and the delay of the
    configuration, and then [server.pre] once with the exposed route, unless
    [route] is [false], in which case no route is exposed. *)
Theorem preMiddleware_success {W : Type}
    (server : @ServerArg W) (userConfig : @UserConfigArg W) (σ σ1 : @State W)
    (cl : @Closure W) :
  preMiddleware server userConfig σ = (Normal cl, σ1) →
  server = SrvObject (Some (cl_router cl)) true
  ∧ checkConfig userConfig = Normal (cl_config cl)
  ∧ cl_pathLimiter cl = PathLimit_new (maxPathsToCount (cl_config cl))
  ∧ pathSet (cl_pathLimiter cl) = ∅
  ∧ cl_metrics cl = initMetrics (cl_config cl)
  ∧ world σ1 = world σ
  ∧ emitted σ σ1
    = DefaultMetrics (promBlacklist (cl_config cl)) (promDefaultDelay (cl_config cl))
      :: (if is_false (route (cl_config cl)) then []
          else [ServerPre (route (cl_config cl))]).
Proof.
  unfold preMiddleware.
  destruct server as [| |[router|] []]; try discriminate.
  destruct (checkConfig userConfig) as [config|e] eqn:Hcheck; [|discriminate].
  cbv zeta.
  match goal with
  | |- context [callInitMetrics config ?τ] =>
      set (σ2 := τ);
      pose proof (callInitMetrics_value config σ2) as Hvalue;
      destruct (callInitMetrics_frame config σ2) as (_ & Hw3 & Ht3);
      destruct (callInitMetrics config σ2) as [[metrics|e] σ3]
  end; [|discriminate].
  intros [= <- <-]. simpl in *.
  rewrite (Hvalue σ3 metrics eq_refl).
  destruct (checkConfig_accepted _ _ Hcheck) as (_ & _ & Hroute & _).
  repeat (split; [reflexivity|]).
  split.
  - rewrite Hw3. subst σ2. destruct (truthy (route config)); reflexivity.
  - apply emitted_app. rewrite Ht3. subst σ2.
    destruct Hroute as [-> | (s & -> & Hs)]; simpl.
    + reflexivity.
    + rewrite bool_decide_false by assumption. simpl.
      by rewrite <- app_assoc.
Qed.

Lemma preMiddleware_success_witness :
  ∃ cl σ1,
    preMiddleware (server_with router_without_routes)
      (UArgObject {| u_route := Some (VBool false); u_exclude := None;
                     u_promBlacklist := None; u_promDefaultDelay := None;
                     u_maxPathsToCount := None |}) state0
    = (Normal cl, σ1)
    ∧ emitted state0 σ1 = [DefaultMetrics (VArray []) (VNumber (Num 1000))].
Proof.
  eexists _, _. split; [reflexivity|].
  edestruct (preMiddleware_success (server_with router_without_routes)
               (UArgObject {| u_route := Some (VBool false); u_exclude := None;
                              u_promBlacklist := None; u_promDefaultDelay := None;
                              u_maxPathsToCount := None |}) state0)
    as (_ & _ & _ & _ & _ & _ & Hevents); [reflexivity|].
  exact Hevents.
Defined.

(** ** The handler and the response *)

Section HandlerRuns.
Context {W : Type}.
Implicit Types (cl : @Closure W) (σ : @State W) (req : Request).

Lemma status_code_label_value (res2 : option Response) :
  status_code_label res2
  = Normal match res2 with
           | Some {| statusCode := Some c |} => c
           | _ => 0
           end.
Proof.
  unfold status_code_label. destruct res2 as [[[c|]]|]; simpl; try reflexivity.
  case_bool_decide; simpl; [by subst|reflexivity].
Qed.

(** The trace only grows in a run, and by events that are not registrations
    of the counting callback. *)
Lemma handler_trace_extends cl req σ :
  cl_metrics cl = initMetrics (cl_config cl) →
  ∃ evs, trace (snd (handler cl req σ)) = (trace σ ++ evs)%list
         ∧ existsb is_IncCounter_registration evs = false.
Proof.
  intros Hm. rewrite handler_with_initMetrics by assumption.
  destruct (resolvePath req (cl_router cl req)) as [path|e]; simpl;
    [|exists []; by rewrite app_nil_r].
  pose proof (shouldMeasure_trace path (cl_config cl) σ) as Ht.
  destruct (shouldMeasure path (cl_config cl) σ) as [[[]|e] σ1]; simpl in *;
    rewrite ?Ht.
  - destruct (cl_router cl req); simpl; rewrite ?Ht, <- ?app_assoc;
      eexists; (split; [reflexivity|reflexivity]).
  - eexists; split; reflexivity.
  - exists []. by rewrite app_nil_r.
Qed.

End HandlerRuns.

(** X10. A run of the handler that returns has called [next] exactly once,
    as the last thing it did; a run that throws has called nothing at all:
    no timer is started, no callback registered, and [next] is not called.
    This holds of any instance, whatever its metrics object holds. *)
Theorem handler_calls_next_iff_it_returns {W : Type}
    (cl : @Closure W) (req : Request) (σ : @State W) :
  let r := handler cl req σ in
  let evs := emitted σ (snd r) in
  match fst (fst r) with
  | Normal _ => last evs = Some Next ∧ List.length (List.filter is_Next evs) = 1%nat
  | Throw _ => evs = []
  end.
Proof.
  intros r evs. subst r evs. unfold handler.
  destruct (resolvePath req (cl_router cl req)) as [path|e]; simpl;
    [|apply emitted_app; by rewrite app_nil_r].
  pose proof (shouldMeasure_trace path (cl_config cl) σ) as Ht.
  destruct (shouldMeasure path (cl_config cl) σ) as [[[]|e] σ1]; simpl in *.
  - destruct (bool_decide _ && _);
      destruct (cl_metrics cl !! "requestCounte");
      try destruct (registerPath (cl_pathLimiter cl) path) as [[] l1]; simpl;
      (erewrite emitted_app by (simpl; rewrite Ht, <- ?app_assoc; reflexivity));
      split; reflexivity.
  - erewrite emitted_app by (simpl; rewrite Ht; reflexivity). split; reflexivity.
  - apply emitted_app. by rewrite Ht, app_nil_r.
Qed.

(** X11. The resolved path fails to exist exactly when the router found a
    route whose [path] is missing or empty and whose [url] is missing; the
    handler then throws the TypeError of the conversion and leaves the
    instance and the whole state, cache included, as they were. *)
Theorem handler_route_without_template {W : Type}
    (cl : @Closure W) (req : Request) (σ : @State W) :
  (is_normal (resolvePath req (cl_router cl req)) = false
   ↔ ∃ spec, cl_router cl req = RouteFound spec
             ∧ (spec_path spec = None ∨ spec_path spec = Some (PathString ""))
             ∧ spec_url spec = None)
  ∧ (is_normal (resolvePath req (cl_router cl req)) = false →
     handler cl req σ
     = (Throw (TypeError "Cannot read property 'toString' of undefined"), cl, σ)).
Proof.
  split.
  - destruct (cl_router cl req) as [message|[path url]]; simpl.
    + split; [discriminate|]. intros (spec & Hspec & _). discriminate.
    + unfold js_or. simpl.
      destruct path as [[s|r]|]; simpl.
      * case_bool_decide as Hs; simpl.
        -- subst s. destruct url as [[s'|r']|]; simpl.
           ++ split; [discriminate|]. intros (spec & [= <-] & _ & Hurl). discriminate.
           ++ split; [discriminate|]. intros (spec & [= <-] & _ & Hurl). discriminate.
           ++ split; [|reflexivity]. intros _. eexists. split; [reflexivity|]. auto.
        -- split; [discriminate|].
           intros (spec & [= <-] & [Hp | Hp] & _); simpl in Hp; congruence.
      * split; [discriminate|].
        intros (spec & [= <-] & [Hp | Hp] & _); discriminate.
      * destruct url as [[s'|r']|]; simpl.
        -- split; [discriminate|]. intros (spec & [= <-] & _ & Hurl). discriminate.
        -- split; [discriminate|]. intros (spec & [= <-] & _ & Hurl). discriminate.
        -- split; [|reflexivity]. intros _. eexists. split; [reflexivity|]. auto.
  - unfold handler.
    destruct (cl_router cl req) as [message|spec]; simpl; [discriminate|].
    destruct (js_or (spec_path spec) (spec_url spec)) as [[s|r]|]; simpl;
      try discriminate. reflexivity.
Qed.

Lemma handler_route_without_template_witness :
  handler {| cl_router := router_without_template;
             cl_config := config_excluding (VArray ["/health"]);
             cl_pathLimiter := PathLimit_new 100;
             cl_metrics := initMetrics (config_excluding (VArray ["/health"])) |}
          (get "/x") state0
  = (Throw (TypeError "Cannot read property 'toString' of undefined"),
     {| cl_router := router_without_template;
        cl_config := config_excluding (VArray ["/health"]);
        cl_pathLimiter := PathLimit_new 100;
        cl_metrics := initMetrics (config_excluding (VArray ["/health"])) |},
     state0).
Proof.
  apply (handler_route_without_template
           {| cl_router := router_without_template;
              cl_config := config_excluding (VArray ["/health"]);
              cl_pathLimiter := PathLimit_new 100;
              cl_metrics := initMetrics (config_excluding (VArray ["/health"])) |}
           (get "/x") state0).
  reflexivity.
Defined.

(** X12. From request to recorded metrics: when the response of a handled
    request finishes, the callbacks registered by the run never throw, the
    counter has not moved, and the histogram has gained exactly one
    observation, labelled with the resolved path, the method of the request
    and the status code of the response (0 without one), when the router
    found a route and [shouldMeasure] answered true, and none otherwise
    (excluded path, unmatched path, or a run that threw). *)
Theorem handler_then_finish_records {W : Type}
    (cl : @Closure W) (req : Request) (σ : @State W)
    (res2 : option Response) (m : Recorded) :
  cl_metrics cl = initMetrics (cl_config cl) →
  finish (registered (emitted σ (snd (handler cl req σ)))) res2 m
  = (Normal tt,
     {| histogram_observations :=
          histogram_observations m
          ++ match cl_router cl req, resolvePath req (cl_router cl req) with
             | RouteFound _, Normal path =>
                 match fst (shouldMeasure path (cl_config cl) σ) with
                 | Normal true =>
                     [{| l_path := path;
                         l_method := req_method req;
                         l_status_code :=
                           match res2 with
                           | Some {| statusCode := Some c |} => c
                           | _ => 0
                           end |}]
                 | _ => []
                 end
             | _, _ => []
             end;
        counter_increments := counter_increments m |}).
Proof.
  intros Hm. rewrite handler_emitted by assumption.
  assert (Hnone : (Normal tt, m)
                  = (@Normal unit tt,
                     {| histogram_observations := histogram_observations m ++ [];
                        counter_increments := counter_increments m |})).
  { rewrite app_nil_r. by destruct m. }
  destruct (cl_router cl req) as [message|spec] eqn:Hr.
  - simpl resolvePath. cbv iota.
    destruct (fst (shouldMeasure (req_path req) (cl_config cl) σ)) as [[]|e];
      exact Hnone.
  - destruct (resolvePath req (RouteFound spec)) as [path|e]; [|exact Hnone].
    destruct (fst (shouldMeasure path (cl_config cl) σ)) as [[]|e];
      try exact Hnone.
    change (registered [StartTimer path (req_method req);
                        OnFinished (EndTimer path (req_method req)); Next])
      with [EndTimer path (req_method req)].
    cbn [finish]. unfold runFinishCallback.
    rewrite status_code_label_value. reflexivity.
Qed.

Lemma handler_then_finish_witness :
  finish (registered
            (emitted state0
               (snd (handler {| cl_router := router_with_template;
                                cl_config := config_excluding (VArray ["/health"]);
                                cl_pathLimiter := PathLimit_new 100;
                                cl_metrics := initMetrics (config_excluding (VArray ["/health"])) |}
                             (get "/orders/7") state0))))
         (Some {| statusCode := Some 200 |}) nothing_recorded
  = (Normal tt,
     {| histogram_observations :=
          [{| l_path := "/orders/:id"; l_method := "GET"; l_status_code := 200 |}];
        counter_increments := [] |}).
Proof.
  apply (handler_then_finish_records
           {| cl_router := router_with_template;
              cl_config := config_excluding (VArray ["/health"]);
              cl_pathLimiter := PathLimit_new 100;
              cl_metrics := initMetrics (config_excluding (VArray ["/health"])) |}
           (get "/orders/7") state0 (Some {| statusCode := Some 200 |}) nothing_recorded).
  reflexivity.
Defined.

(** X13. A request repeated on the same instance is answered from the cache:
    when a run has returned, a second run for the same request, on the state
    the first one left, returns too, makes the same calls as the first, and
    leaves the cache and the user state as they are, so that no pattern and
    no predicate is run a second time.  (The resolved path [__proto__] and
    a cache that no longer answers [hasOwnProperty] are left out.) *)
Theorem handler_repeated_request_uses_cache {W : Type}
    (cl cl1 : @Closure W) (req : Request) (σ σ1 : @State W) (path : string) :
  cl_metrics cl = initMetrics (cl_config cl) →
  resolvePath req (cl_router cl req) = Normal path →
  path ≠ "__proto__" →
  handler cl req σ = (Normal tt, cl1, σ1) →
  cache_intact (shouldMeasureExcludedCache σ1) →
  ∃ σ2,
    handler cl1 req σ1 = (Normal tt, cl1, σ2)
    ∧ shouldMeasureExcludedCache σ2 = shouldMeasureExcludedCache σ1
    ∧ world σ2 = world σ1
    ∧ emitted σ1 σ2 = emitted σ σ1.
Proof.
  intros Hm Hpath Hne Hrun Hintact.
  pose proof (handler_emitted cl req σ Hm) as Hfirst.
  rewrite Hrun in Hfirst. simpl in Hfirst. rewrite Hpath in Hfirst.
  rewrite handler_with_initMetrics in Hrun by assumption.
  rewrite Hpath in Hrun.
  destruct (shouldMeasure path (cl_config cl) σ) as [[b|e] σa] eqn:Hcall;
    [|discriminate].
  assert (Hcl : cl1 = cl) by (destruct b; congruence).
  subst cl1.
  assert (Hstate : shouldMeasureExcludedCache σ1 = shouldMeasureExcludedCache σa
                   ∧ world σ1 = world σa).
  { destruct b; injection Hrun as <-; [destruct (cl_router cl req)|]; by split. }
  destruct Hstate as (Hcache & Hworld).
  assert (Hagain : shouldMeasure path (cl_config cl) σ1 = (Normal b, σ1)).
  { destruct (truthy (exclude (cl_config cl))) eqn:Ht.
    - pose proof (shouldMeasure_records path (cl_config cl) σ b σa Ht Hne Hcall) as Hrec.
      rewrite <- Hcache in Hrec.
      rewrite (shouldMeasure_hit path (cl_config cl) σ1 (negb b)) by assumption.
      by rewrite negb_involutive.
    - rewrite shouldMeasure_no_exclude in Hcall by assumption.
      injection Hcall as <- <-. by apply shouldMeasure_no_exclude. }
  pose proof (handler_emitted cl req σ1 Hm) as Hsecond.
  rewrite Hpath in Hsecond.
  rewrite handler_with_initMetrics in Hsecond |- * by assumption.
  rewrite Hpath in Hsecond |- *. rewrite Hagain in Hsecond |- *.
  simpl in Hfirst, Hsecond.
  destruct b.
  - eexists. split; [reflexivity|]. split; [|split].
    + by destruct (cl_router cl req).
    + by destruct (cl_router cl req).
    + simpl in Hsecond. rewrite Hsecond, Hfirst. reflexivity.
  - eexists. split; [reflexivity|]. split; [reflexivity|]. split; [reflexivity|].
    simpl in Hsecond. rewrite Hsecond, Hfirst. reflexivity.
Qed.

Lemma handler_repeated_request_witness :
  ∃ σ2,
    handler {| cl_router := router_with_template;
               cl_config := config_excluding (VFunction alternating_predicate);
               cl_pathLimiter := PathLimit_new 100;
               cl_metrics := initMetrics (config_excluding (VFunction alternating_predicate)) |}
            (get "/orders/7")
            (snd (handler {| cl_router := router_with_template;
                             cl_config := config_excluding (VFunction alternating_predicate);
                             cl_pathLimiter := PathLimit_new 100;
                             cl_metrics := initMetrics (config_excluding (VFunction alternating_predicate)) |}
                          (get "/orders/7") state0))
    = (Normal tt,
       {| cl_router := router_with_template;
          cl_config := config_excluding (VFunction alternating_predicate);
          cl_pathLimiter := PathLimit_new 100;
          cl_metrics := initMetrics (config_excluding (VFunction alternating_predicate)) |},
       σ2)
    ∧ world σ2 = 1%nat.
Proof.
  set (cl := {| cl_router := router_with_template;
                cl_config := config_excluding (VFunction alternating_predicate);
                cl_pathLimiter := PathLimit_new 100;
                cl_metrics := initMetrics (config_excluding (VFunction alternating_predicate)) |}).
  destruct (handler_repeated_request_uses_cache
              cl cl (get "/orders/7") state0
              (snd (handler cl (get "/orders/7") state0)) "/orders/:id")
    as (σ2 & Hrun & _ & Hworld & _).
  - reflexivity.
  - reflexivity.
  - discriminate.
  - reflexivity.
  - vm_compute. reflexivity.
  - exists σ2. split; [exact Hrun|]. rewrite Hworld. reflexivity.
Defined.

(** X14. Over any sequence of requests handled by an instance built on the
    object [initMetrics] returns, the instance is left exactly as it was (in
    particular the limiter is never consulted: it holds the paths it held),
    the trace only grows, and none of the callbacks registered is one that
    increments the counter. *)
Theorem handlerRuns_never_count {W : Type}
    (cl : @Closure W) (reqs : list Request) (σ : @State W) :
  cl_metrics cl = initMetrics (cl_config cl) →
  fst (handlerRuns cl reqs σ) = cl
  ∧ pathSet (cl_pathLimiter (fst (handlerRuns cl reqs σ))) = pathSet (cl_pathLimiter cl)
  ∧ trace σ `prefix_of` trace (snd (handlerRuns cl reqs σ))
  ∧ existsb is_IncCounter_registration (emitted σ (snd (handlerRuns cl reqs σ))) = false.
Proof.
  intros Hm.
  assert (Hinv : fst (handlerRuns cl reqs σ) = cl
                 ∧ ∃ evs, trace (snd (handlerRuns cl reqs σ)) = (trace σ ++ evs)%list
                          ∧ existsb is_IncCounter_registration evs = false).
  { revert σ. induction reqs as [|req rest IH]; intros σ; simpl.
    - split; [reflexivity|]. exists []. by rewrite app_nil_r.
    - destruct (handler_never_counts cl req σ Hm) as (_ & Hcl).
      destruct (handler_trace_extends cl req σ Hm) as (evs1 & Ht1 & Hn1).
      destruct (handler cl req σ) as [[c cl1] σ1]; simpl in *. subst cl1.
      destruct (IH σ1) as (IHcl & evs2 & Ht2 & Hn2).
      split; [assumption|]. exists (evs1 ++ evs2)%list.
      rewrite Ht2, Ht1, <- app_assoc. split; [reflexivity|].
      rewrite existsb_app, Hn1, Hn2. reflexivity. }
  destruct Hinv as (Hcl & evs & Ht & Hn).
  split; [assumption|]. split; [by rewrite Hcl|]. split.
  - rewrite Ht. by apply prefix_app_r.
  - by rewrite (emitted_app σ _ evs Ht).
Qed.

Lemma handlerRuns_never_count_witness :
  fst (handlerRuns {| cl_router := router_without_routes;
                      cl_config := config_excluding VUndefined;
                      cl_pathLimiter := PathLimit_new 100;
                      cl_metrics := initMetrics (config_excluding VUndefined) |}
                   [get "/a"; get "/b"] state0)
  = {| cl_router := router_without_routes;
       cl_config := config_excluding VUndefined;
       cl_pathLimiter := PathLimit_new 100;
       cl_metrics := initMetrics (config_excluding VUndefined) |}.
Proof.
  apply (handlerRuns_never_count
           {| cl_router := router_without_routes;
              cl_config := config_excluding VUndefined;
              cl_pathLimiter := PathLimit_new 100;
              cl_metrics := initMetrics (config_excluding VUndefined) |}
           [get "/a"; get "/b"] state0).
  reflexivity.
Defined.

(** X15. When a response finishes, whatever callbacks were registered on it
    all run and none throws: each callback that ends a timer adds one
    observation to the histogram and each callback that increments adds one
    to the counter, in the order of registration, neither touching the other
    instrument, and all with the same status code label. *)
Theorem finish_runs_every_callback
    (cbs : list FinishCallback) (res2 : option Response) (m : Recorded) :
  let code := match res2 with
              | Some {| statusCode := Some c |} => c
              | _ => 0
              end in
  finish cbs res2 m
  = (Normal tt,
     {| histogram_observations :=
          histogram_observations m
          ++ omap (λ cb, match cb with
                         | EndTimer path method =>
                             Some {| l_path := path; l_method := method;
                                     l_status_code := code |}
                         | IncCounter _ _ => None
                         end) cbs;
        counter_increments :=
          counter_increments m
          ++ omap (λ cb, match cb with
                         | IncCounter path method =>
                             Some {| l_path := path; l_method := method;
                                     l_status_code := code |}
                         | EndTimer _ _ => None
                         end) cbs |}).
Proof.
  intros code. revert m. induction cbs as [|cb rest IH]; intros m.
  - simpl. rewrite !app_nil_r. by destruct m.
  - cbn [finish]. unfold runFinishCallback.
    rewrite (status_code_label_value res2). fold code.
    destruct cb as [path method|path method]; rewrite IH; cbn;
      rewrite <- ?app_assoc; reflexivity.
Qed.

(** X16. How the cache grows under one configuration.  Without an exclusion
    setting no call changes anything: the cache stays as it is however many
    paths are asked for.  With a literal list every path asked for the first
    time gets an entry: after calls for distinct new paths the cache holds
    one entry more per call, whether or not the paths are in the list, and
    nothing bounds it.  (The paths [__proto__] and [hasOwnProperty] are left
    out.) *)
Theorem shouldMeasure_cache_grows_with_every_new_path {W : Type}
    (config : @Config W) (paths : list string) (σ : @State W) :
  let σ' := shouldMeasureCalls (map (λ q, (q, config)) paths) σ in
  (truthy (exclude config) = false → σ' = σ)
  ∧ (∀ items,
       exclude config = VArray items →
       NoDup paths →
       (∀ p, p ∈ paths →
             shouldMeasureExcludedCache σ !! p = None
             ∧ p ≠ "__proto__" ∧ p ≠ "hasOwnProperty") →
       cache_intact (shouldMeasureExcludedCache σ) →
       size (shouldMeasureExcludedCache σ')
       = (size (shouldMeasureExcludedCache σ) + List.length paths)%nat
       ∧ ∀ p, p ∈ paths → shouldMeasureExcludedCache σ' !! p = Some (bool_decide (p ∈ items))).
Proof.
  intros σ'. subst σ'. split.
  - intros Ht. induction paths as [|q rest IH]; simpl; [reflexivity|].
    by rewrite shouldMeasure_no_exclude.
  - intros items Hex. revert σ.
    induction paths as [|q rest IH]; intros σ Hnodup Hnew Hintact; simpl.
    + split; [lia|]. intros p Hp. by apply elem_of_nil in Hp.
    + apply NoDup_cons in Hnodup as (Hq & Hnodup).
      destruct (Hnew q) as (Hmiss & Hproto & Hown); [by left|].
      assert (Hstep : snd (shouldMeasure q config σ)
                      = set_cache (<[q := bool_decide (q ∈ items)]>
                                     (shouldMeasureExcludedCache σ)) σ).
      { rewrite shouldMeasure_miss; [| by rewrite Hex | assumption | assumption].
        rewrite Hex. simpl. unfold js_set. rewrite decide_False by assumption.
        by destruct σ. }
      rewrite Hstep.
      destruct (IH (set_cache (<[q := bool_decide (q ∈ items)]>
                                 (shouldMeasureExcludedCache σ)) σ))
        as (IHsize & IHentries).
      * assumption.
      * intros p Hp. destruct (Hnew p) as (Hpm & Hpp & Hpo); [by right|].
        simpl. rewrite lookup_insert_ne by (intros ->; contradiction). auto.
      * unfold cache_intact. simpl.
        rewrite lookup_insert_ne by (intros ->; contradiction). exact Hintact.
      * split.
        -- rewrite IHsize. simpl.
           rewrite map_size_insert_None by assumption. lia.
        -- intros p Hp. apply elem_of_cons in Hp as [-> | Hp]; [|by apply IHentries].
           apply shouldMeasureCalls_keeps_entries. simpl. apply lookup_insert_eq.
Qed.

Lemma shouldMeasure_cache_grows_witness :
  size (shouldMeasureExcludedCache
          (shouldMeasureCalls
             (map (λ q, (q, config_excluding (VArray ["/health"])))
                  ["/a"; "/b"; "/health"]) state0))
  = (size (shouldMeasureExcludedCache state0) + 3)%nat.
Proof.
  destruct (shouldMeasure_cache_grows_with_every_new_path
              (config_excluding (VArray ["/health"])) ["/a"; "/b"; "/health"] state0)
    as (_ & Hgrows).
  apply (Hgrows ["/health"]).
  - reflexivity.
  - apply (bool_decide_unpack _). vm_compute. exact I.
  - intros p Hp. split; [reflexivity|].
    apply list_elem_of_In in Hp. simpl in Hp.
    destruct Hp as [<- | [<- | [<- | []]]]; split; discriminate.
  - reflexivity.
Defined.

(** ** One instance for each registry *)

Section Registry.
Context {W : Type}.
Implicit Types (cl : @Closure W) (σ : @State W).

Lemma shouldMeasure_registry (p : string) (config : @Config W) σ :
  registry (snd (shouldMeasure p config σ)) = registry σ.
Proof.
  unfold shouldMeasure. destruct (truthy (exclude config)); [|reflexivity].
  destruct (js_hasOwnProperty _ _) as [[]|]; try reflexivity.
  destruct (evalExclude _ _ _) as [[]]; reflexivity.
Qed.

Lemma handler_registry cl (req : Request) σ :
  registry (snd (handler cl req σ)) = registry σ.
Proof.
  unfold handler.
  destruct (resolvePath req (cl_router cl req)) as [path|e]; [|reflexivity].
  pose proof (shouldMeasure_registry path (cl_config cl) σ) as Hr.
  destruct (shouldMeasure path (cl_config cl) σ) as [[[]|e] σ1]; simpl in *;
    try assumption.
  destruct (bool_decide _ && _);
    destruct (cl_metrics cl !! "requestCounte");
    try destruct (registerPath (cl_pathLimiter cl) path) as [[] l1]; simpl;
    assumption.
Qed.

Lemma handlerRuns_registry cl (reqs : list Request) σ :
  registry (snd (handlerRuns cl reqs σ)) = registry σ.
Proof.
  revert cl σ. induction reqs as [|req rest IH]; intros cl σ; simpl; [reflexivity|].
  pose proof (handler_registry cl req σ) as Hr.
  destruct (handler cl req σ) as [[c cl1] σ1]; simpl in *.
  by rewrite IH.
Qed.

(** A construction that succeeds leaves both names in the registry. *)
Lemma preMiddleware_registers (server : @ServerArg W) (userConfig : @UserConfigArg W)
    σ σ1 cl :
  preMiddleware server userConfig σ = (Normal cl, σ1) →
  "http_request_duration_miliseconds" ∈ registry σ1
  ∧ "http_requests_total" ∈ registry σ1.
Proof.
  unfold preMiddleware.
  destruct server as [| |[router|] []]; try discriminate.
  destruct (checkConfig userConfig) as [config|e]; [|discriminate].
  cbv zeta. unfold callInitMetrics, newInstrument.
  repeat case_decide; try discriminate.
  intros [= _ <-]. simpl. split; set_solver.
Qed.

End Registry.

(** X17. One instance for each registry: once a construction has succeeded,
    both metric names are in the registry of prom-client, handling requests
    leaves them there, and every later call of [preMiddleware], whatever its
    arguments, throws (a TypeError when the server or the options are
    refused, prom-client's Error otherwise) for as long as the names stay in
    the registry. *)
Theorem preMiddleware_second_construction_throws {W : Type}
    (server server' : @ServerArg W) (userConfig userConfig' : @UserConfigArg W)
    (σ σ1 σ2 : @State W) (cl : @Closure W) (reqs : list Request) :
  preMiddleware server userConfig σ = (Normal cl, σ1) →
  registry (snd (handlerRuns cl reqs σ1)) ⊆ registry σ2 →
  registry (snd (handlerRuns cl reqs σ1)) = registry σ1
  ∧ ∃ e, fst (preMiddleware server' userConfig' σ2) = Throw e
         ∧ ((∃ msg, e = TypeError msg) ∨ (∃ msg, e = Error msg)).
Proof.
  intros Hnew Hsub.
  pose proof (handlerRuns_registry cl reqs σ1) as Hkept.
  split; [assumption|].
  destruct (preMiddleware_registers _ _ _ _ _ Hnew) as (Hhistogram & _).
  assert (Htaken : "http_request_duration_miliseconds" ∈ registry σ2).
  { apply Hsub. by rewrite Hkept. }
  unfold preMiddleware.
  destruct server' as [| |[router|] []]; simpl; eauto 6.
  destruct (checkConfig_accepted_or_TypeError userConfig') as [(config & ->) | (msg & ->)];
    simpl; [|eauto 6].
  match goal with
  | |- context [callInitMetrics config ?τ] =>
      destruct (callInitMetrics_taken config τ) as (msg & Hmsg);
      [left; by destruct (truthy (route config))|];
      destruct (callInitMetrics config τ) as [[metrics|e] σ3]
  end; simpl in *; [discriminate|].
  exists e. split; [reflexivity|]. right. injection Hmsg as ->. eauto.
Qed.

Lemma preMiddleware_second_construction_witness :
  ∃ e,
    fst (preMiddleware (server_with router_with_template)
           (options_excluding (VArray ["/health"]))
           (snd (preMiddleware (server_with router_without_routes) UArgUndefined state0)))
    = Throw e.
Proof.
  destruct (preMiddleware_second_construction_throws
              (server_with router_without_routes) (server_with router_with_template)
              UArgUndefined (options_excluding (VArray ["/health"]))
              state0
              (snd (preMiddleware (server_with router_without_routes) UArgUndefined state0))
              (snd (preMiddleware (server_with router_without_routes) UArgUndefined state0))
              {| cl_router := router_without_routes;
                 cl_config := @defaultConfig nat;
                 cl_pathLimiter := PathLimit_new 100;
                 cl_metrics := initMetrics (@defaultConfig nat) |}
              [])
    as (_ & e & He & _).
  - vm_compute. reflexivity.
  - reflexivity.
  - exists e. exact He.
Defined.
